(** * Neraa Rental House: order booking, totals, invoices and amount-in-words

    Shallow embedding of [src/app.py].  The SQL database behind the Flask
    handlers is modelled as one record [DB] holding every table as a list of
    rows, in insertion order; a handler is a function from the database (and
    its request) to the database after the request and the response.  A
    handler that raises is answered with [Crash] and the database is left as
    it was before the request (the session is rolled back, nothing was
    committed).

    Modelling choices:
    - money columns ([db.Float]) are exact rationals [Q]; floating-point
      rounding is not modelled;
    - dates ([db.Date]) are day numbers [Z], compared as the SQL query does;
    - a form list such as [product_id[]] holds [option nat]: [None] is the
      empty string, which the handlers skip with [if pid:];
    - auto-incremented primary keys are one more than the largest key in use;
    - [.first()] on a query returns the first matching row in table order. *)

From Stdlib Require Import List String Ascii ZArith QArith Bool Lia Lqa.
Import ListNotations.

Open Scope Z_scope.

(** ** Rows *)

Record Product := mkProduct {
  product_id : nat;
  product_code : string;
  product_name : string;
  rental_price : Q;
  deposit_amount : Q;
  product_is_active : bool
}.

Record User := mkUser {
  user_id : nat;
  user_name : string;
  user_role : string
}.

Record Customer := mkCustomer {
  customer_id : nat;
  customer_name : string;
  customer_phone : string;
  customer_secondary_phone : string;
  customer_email : string;
  customer_address : string
}.

Record Order := mkOrder {
  order_id : nat;
  transaction_id : string;
  order_customer_id : nat;
  order_staff_id : nat;
  delivery_date : Z;
  return_date : Z;
  status : string;
  total_amount : Q;
  notes : string
}.

Record OrderItem := mkOrderItem {
  item_order_id : nat;
  item_product_id : nat;
  price : Q
}.

Record OrderAccessory := mkOrderAccessory {
  accessory_order_id : nat;
  accessory_name : string;
  accessory_remarks : string
}.

Record OrderExtraCharge := mkOrderExtraCharge {
  extra_order_id : nat;
  extra_description : string;
  amount : Q;
  extra_remarks : string
}.

Record Invoice := mkInvoice {
  invoice_id : nat;
  invoice_number : string;
  invoice_order_id : nat
}.

Record DB := mkDB {
  users : list User;
  products : list Product;
  customers : list Customer;
  orders : list Order;
  order_items : list OrderItem;
  order_accessories : list OrderAccessory;
  order_extra_charges : list OrderExtraCharge;
  invoices : list Invoice
}.

(** ** amount_in_words *)

Section AmountInWords.

Local Open Scope string_scope.

Definition ones : list string :=
  [""; "One"; "Two"; "Three"; "Four"; "Five"; "Six"; "Seven"; "Eight"; "Nine"; "Ten";
   "Eleven"; "Twelve"; "Thirteen"; "Fourteen"; "Fifteen"; "Sixteen"; "Seventeen";
   "Eighteen"; "Nineteen"].

Definition tens : list string :=
  [""; ""; "Twenty"; "Thirty"; "Forty"; "Fifty"; "Sixty"; "Seventy"; "Eighty"; "Ninety"].

(** [l[n]] on a Python list: a negative [n] counts from the end, and an
    index outside [[-len(l), len(l))] raises [IndexError], here [None]. *)
Definition idx (l : list string) (n : Z) : option string :=
  let len := Z.of_nat (List.length l) in
  if Z.ltb n 0 then
    (if Z.ltb (n + len) 0 then None else nth_error l (Z.to_nat (n + len)))
  else nth_error l (Z.to_nat n).

(** String [+] of two operands, either of which may have raised. *)
Definition cat (a b : option string) : option string :=
  match a, b with
  | Some x, Some y => Some (x ++ y)
  | _, _ => None
  end.

(** [convert_less_than_thousand]; the recursive call is on [n mod 100],
    which never recurses again, so two levels of [fuel] are enough.  [/] and
    [mod] on [Z] round toward minus infinity, as Python's [//] and [%] do. *)
Fixpoint convert_less_than_thousand_f (fuel : nat) (n : Z) : option string :=
  match fuel with
  | O => Some ""
  | S fuel' =>
      if Z.eqb n 0 then Some ""
      else if Z.ltb n 20 then idx ones n
      else if Z.ltb n 100 then
        cat (idx tens (n / 10))
            (if negb (Z.eqb (n mod 10) 0) then cat (Some " ") (idx ones (n mod 10)) else Some "")
      else
        cat (cat (idx ones (n / 100)) (Some " Hundred"))
            (if negb (Z.eqb (n mod 100) 0)
             then cat (Some " ") (convert_less_than_thousand_f fuel' (n mod 100)) else Some "")
  end.

Definition convert_less_than_thousand (n : Z) : option string :=
  convert_less_than_thousand_f 2 n.

(** [convert]; every recursive call divides [n] by at least [10^5], so
    [log2 n + 2] levels of [fuel] are enough. *)
Fixpoint convert_f (fuel : nat) (n : Z) : option string :=
  match fuel with
  | O => Some ""
  | S fuel' =>
      if Z.ltb n 1000 then convert_less_than_thousand n
      else if Z.ltb n 100000 then
        cat (cat (convert_less_than_thousand (n / 1000)) (Some " Thousand"))
            (if negb (Z.eqb (n mod 1000) 0)
             then cat (Some " ") (convert_less_than_thousand (n mod 1000)) else Some "")
      else if Z.ltb n 10000000 then
        cat (cat (convert_less_than_thousand (n / 100000)) (Some " Lakh"))
            (if negb (Z.eqb (n mod 100000) 0) then cat (Some " ") (convert_f fuel' (n mod 100000)) else Some "")
      else
        cat (cat (convert_f fuel' (n / 10000000)) (Some " Crore"))
            (if negb (Z.eqb (n mod 10000000) 0) then cat (Some " ") (convert_f fuel' (n mod 10000000)) else Some "")
  end.

Definition convert (n : Z) : option string := convert_f (S (S (Z.to_nat (Z.log2 n)))) n.

(** Python's [int(x)] on a float: truncation toward zero. *)
Definition py_int (q : Q) : Z := Z.quot (Qnum q) (Zpos (Qden q)).

(** [amount_in_words]; [None] is the [IndexError] of a negative index
    below [-len(ones)]. *)
Definition amount_in_words (amount : Q) : option string :=
  if Qeq_bool amount 0 then Some "Zero Rupees Only"
  else cat (convert (py_int amount)) (Some " Rupees Only").

End AmountInWords.

(** ** Table updates *)

Definition set_products (db : DB) (l : list Product) : DB :=
  mkDB (users db) l (customers db) (orders db) (order_items db)
       (order_accessories db) (order_extra_charges db) (invoices db).

Definition set_customers (db : DB) (l : list Customer) : DB :=
  mkDB (users db) (products db) l (orders db) (order_items db)
       (order_accessories db) (order_extra_charges db) (invoices db).

Definition set_orders (db : DB) (l : list Order) : DB :=
  mkDB (users db) (products db) (customers db) l (order_items db)
       (order_accessories db) (order_extra_charges db) (invoices db).

Definition set_order_items (db : DB) (l : list OrderItem) : DB :=
  mkDB (users db) (products db) (customers db) (orders db) l
       (order_accessories db) (order_extra_charges db) (invoices db).

Definition set_invoices (db : DB) (l : list Invoice) : DB :=
  mkDB (users db) (products db) (customers db) (orders db) (order_items db)
       (order_accessories db) (order_extra_charges db) l.

Definition max_key (l : list nat) : nat := fold_right Nat.max O l.

Definition next_customer_id (db : DB) : nat := S (max_key (map customer_id (customers db))).
Definition next_order_id (db : DB) : nat := S (max_key (map order_id (orders db))).
Definition next_invoice_id (db : DB) : nat := S (max_key (map invoice_id (invoices db))).

(** [Model.query.get(id)] and [get_or_404]. *)
Definition find_product (db : DB) (pid : nat) : option Product :=
  find (fun p => Nat.eqb (product_id p) pid) (products db).

Definition find_user (db : DB) (uid : nat) : option User :=
  find (fun u => Nat.eqb (user_id u) uid) (users db).

Definition find_order (db : DB) (oid : nat) : option Order :=
  find (fun o => Nat.eqb (order_id o) oid) (orders db).

(** The order row an item row is joined with ([join(Order)]). *)
Definition order_of (db : DB) (it : OrderItem) : option Order :=
  find_order db (item_order_id it).

Definition update_order (db : DB) (oid : nat) (f : Order -> Order) : DB :=
  set_orders db (map (fun o => if Nat.eqb (order_id o) oid then f o else o) (orders db)).

Definition set_order_total (t : Q) (o : Order) : Order :=
  mkOrder (order_id o) (transaction_id o) (order_customer_id o) (order_staff_id o)
          (delivery_date o) (return_date o) (status o) t (notes o).

Definition set_order_details (d r : Z) (n : string) (o : Order) : Order :=
  mkOrder (order_id o) (transaction_id o) (order_customer_id o) (order_staff_id o)
          d r (status o) (total_amount o) n.

(** ** generate_invoice_number: [f"INV-{count:05d}"] *)

Fixpoint digits_aux (fuel n : nat) (acc : string) : string :=
  match fuel with
  | O => acc
  | S fuel' =>
      let acc' := String (ascii_of_nat (48 + Nat.modulo n 10)) acc in
      if Nat.ltb n 10 then acc' else digits_aux fuel' (Nat.div n 10) acc'
  end.

Definition string_of_nat (n : nat) : string := digits_aux (S n) n EmptyString.

Fixpoint zeros (k : nat) : string :=
  match k with O => EmptyString | S k' => String "0" (zeros k') end.

Definition pad5 (s : string) : string := (zeros (5 - String.length s) ++ s)%string.

Definition generate_invoice_number (db : DB) : string :=
  ("INV-" ++ pad5 (string_of_nat (S (List.length (invoices db)))))%string.

(** ** Handler responses *)

Inductive Response :=
  | Done (flashes : list string)   (** committed; redirect with these messages *)
  | Rejected (message : string)    (** early redirect before any write *)
  | NotFound                       (** [get_or_404] *)
  | Crash.                         (** unhandled exception; nothing committed *)

(** ** Availability query shared by create_order and add_products_to_order *)

Definition active_status (s : string) : bool :=
  (String.eqb s "pending" || String.eqb s "approved")%bool.

(** The three-clause [db.or_] of the duplicate-booking query, for the
    requested range [[d, r]] against an existing order. *)
Definition query_overlap (o : Order) (d r : Z) : bool :=
  ((delivery_date o <=? d) && (d <=? return_date o))
  || ((delivery_date o <=? r) && (r <=? return_date o))
  || ((d <=? delivery_date o) && (return_date o <=? r)).

Definition item_booked (db : DB) (pid : nat) (d r : Z) (it : OrderItem) : bool :=
  Nat.eqb (item_product_id it) pid &&
  match order_of db it with
  | Some o => active_status (status o) && query_overlap o d r
  | None => false
  end.

(** [db.session.query(OrderItem).join(Order).filter(...).first()] *)
Definition existing_booking (db : DB) (pid : nat) (d r : Z) : option OrderItem :=
  find (item_booked db pid d r) (order_items db).

(** ** The order form ([request.form]) *)

Open Scope string_scope.

Record OrderForm := mkOrderForm {
  form_customer_name : string;
  form_customer_phone : string;
  form_secondary_phone : string;
  form_customer_email : string;
  form_customer_address : string;
  form_delivery_date : Z;
  form_return_date : Z;
  form_notes : string;
  form_product_ids : list (option nat);
  form_accessory_names : list string;
  form_accessory_remarks : list string;
  form_extra_descriptions : list string;
  form_extra_amounts : list (option Q);
  form_extra_remarks : list string
}.

(** The [# Check for duplicate bookings] loop of create_order: the first
    requested product with an existing booking, if any. *)
Fixpoint first_booked (db : DB) (pids : list (option nat)) (d r : Z) : option nat :=
  match pids with
  | [] => None
  | None :: pids' => first_booked db pids' d r
  | Some pid :: pids' =>
      match existing_booking db pid d r with
      | Some _ => Some pid
      | None => first_booked db pids' d r
      end
  end.

(** The [# Add products] loop: one item per requested product that exists,
    priced at its current [rental_price]; [total] accumulates the prices. *)
Fixpoint add_items (db : DB) (oid : nat) (pids : list (option nat)) (total : Q)
  : list OrderItem * Q :=
  match pids with
  | [] => ([], total)
  | None :: pids' => add_items db oid pids' total
  | Some pid :: pids' =>
      match find_product db pid with
      | None => add_items db oid pids' total
      | Some p =>
          let '(its, t) := add_items db oid pids' (total + rental_price p) in
          (mkOrderItem oid (product_id p) (rental_price p) :: its, t)
      end
  end.

(** The [# Add accessories] loop, [i] being the [enumerate] index. *)
Fixpoint add_accessories (oid : nat) (names remarks : list string) (i : nat)
  : list OrderAccessory :=
  match names with
  | [] => []
  | name :: names' =>
      let rest := add_accessories oid names' remarks (S i) in
      if String.eqb name "" then rest
      else mkOrderAccessory oid name (nth i remarks "") :: rest
  end.

(** The [# Add extra charges] loop; [None] is the [IndexError] raised by
    [extra_amounts[i]] when a description has no amount at its index. *)
Fixpoint add_extras (oid : nat) (descs : list string) (amounts : list (option Q))
  (remarks : list string) (i : nat) (total : Q)
  : option (list OrderExtraCharge * Q) :=
  match descs with
  | [] => Some ([], total)
  | desc :: descs' =>
      if String.eqb desc "" then add_extras oid descs' amounts remarks (S i) total
      else
        match nth_error amounts i with
        | None => None
        | Some None => add_extras oid descs' amounts remarks (S i) total
        | Some (Some a) =>
            match add_extras oid descs' amounts remarks (S i) (total + a) with
            | None => None
            | Some (exs, t) => Some (mkOrderExtraCharge oid desc a (nth i remarks "") :: exs, t)
            end
        end
  end.

(** [# Create or get customer]: upsert by phone number. *)
Definition upsert_customer (db : DB) (f : OrderForm) : DB * nat :=
  match find (fun c => String.eqb (customer_phone c) (form_customer_phone f)) (customers db) with
  | None =>
      let cid := next_customer_id db in
      (set_customers db (customers db ++
         [mkCustomer cid (form_customer_name f) (form_customer_phone f)
                     (form_secondary_phone f) (form_customer_email f)
                     (form_customer_address f)]), cid)
  | Some c =>
      (set_customers db (map (fun c' =>
         if Nat.eqb (customer_id c') (customer_id c)
         then mkCustomer (customer_id c') (form_customer_name f) (customer_phone c')
                         (form_secondary_phone f) (form_customer_email f)
                         (form_customer_address f)
         else c') (customers db)), customer_id c)
  end.

Definition transaction_id_used (db : DB) (tx : string) : bool :=
  existsb (fun o => String.eqb (transaction_id o) tx) (orders db).

Definition invoice_number_used (db : DB) (n : string) : bool :=
  existsb (fun i => String.eqb (invoice_number i) n) (invoices db).

(** [create_order] (POST), by the user [staff]; [tx] is the fresh
    [str(uuid.uuid4())[:8].upper()].  The unique constraints on
    [transaction_id] and [invoice_number] fail the commit. *)
Definition create_order (db : DB) (staff : nat) (tx : string) (f : OrderForm) : DB * Response :=
  let d := form_delivery_date f in
  let r := form_return_date f in
  match first_booked db (form_product_ids f) d r with
  | Some pid =>
      match find_product db pid with
      | Some p =>
          (db, Rejected ("Product " ++ product_code p ++ " is already booked for these dates!")%string)
      | None => (db, Crash)
      end
  | None =>
      let '(db1, cid) := upsert_customer db f in
      let oid := next_order_id db1 in
      let '(items, t1) := add_items db1 oid (form_product_ids f) 0 in
      let accs := add_accessories oid (form_accessory_names f) (form_accessory_remarks f) O in
      match add_extras oid (form_extra_descriptions f) (form_extra_amounts f)
                       (form_extra_remarks f) O t1 with
      | None => (db, Crash)
      | Some (extras, total) =>
          let o := mkOrder oid tx cid staff d r "pending" total (form_notes f) in
          let inv := generate_invoice_number db1 in
          if transaction_id_used db1 tx || invoice_number_used db1 inv then (db, Crash)
          else
            (mkDB (users db1) (products db1) (customers db1) (orders db1 ++ [o])
                  (order_items db1 ++ items)
                  (order_accessories db1 ++ accs)
                  (order_extra_charges db1 ++ extras)
                  (invoices db1 ++ [mkInvoice (next_invoice_id db1) inv oid]),
             Done ["Order created successfully"])
      end
  end.

(** ** edit_order and staff_edit_order *)

(** [order.customer.* = request.form...]; [order.customer] is [None] when
    the customer row is missing, and the attribute write raises. *)
Definition update_order_customer (db : DB) (cid : nat) (f : OrderForm) : option DB :=
  match find (fun c => Nat.eqb (customer_id c) cid) (customers db) with
  | None => None
  | Some _ =>
      Some (set_customers db (map (fun c =>
        if Nat.eqb (customer_id c) cid
        then mkCustomer cid (form_customer_name f) (form_customer_phone f)
                        (form_secondary_phone f) (form_customer_email f)
                        (form_customer_address f)
        else c) (customers db)))
  end.

(** The POST body shared by [edit_order] and [staff_edit_order]: update the
    customer, the dates and notes, delete the order's items, accessories and
    extra charges, insert the new ones and store the recomputed total. *)
Definition replace_order_contents (db : DB) (o : Order) (f : OrderForm) (msg : string)
  : DB * Response :=
  let oid := order_id o in
  match update_order_customer db (order_customer_id o) f with
  | None => (db, Crash)
  | Some db1 =>
      let db2 := update_order db1 oid
                   (set_order_details (form_delivery_date f) (form_return_date f) (form_notes f)) in
      let '(items, t1) := add_items db2 oid (form_product_ids f) 0 in
      let accs := add_accessories oid (form_accessory_names f) (form_accessory_remarks f) O in
      match add_extras oid (form_extra_descriptions f) (form_extra_amounts f)
                       (form_extra_remarks f) O t1 with
      | None => (db, Crash)
      | Some (extras, total) =>
          let db3 := update_order db2 oid (set_order_total total) in
          (mkDB (users db3) (products db3) (customers db3) (orders db3)
                (filter (fun it => negb (Nat.eqb (item_order_id it) oid)) (order_items db3) ++ items)
                (filter (fun a => negb (Nat.eqb (accessory_order_id a) oid)) (order_accessories db3) ++ accs)
                (filter (fun e => negb (Nat.eqb (extra_order_id e) oid)) (order_extra_charges db3) ++ extras)
                (invoices db3),
           Done [msg])
      end
  end.

(** [edit_order] (admin, POST). *)
Definition edit_order (db : DB) (oid : nat) (f : OrderForm) : DB * Response :=
  match find_order db oid with
  | None => (db, NotFound)
  | Some o => replace_order_contents db o f "Order updated successfully"
  end.

(** [staff_edit_order] (POST) by the user [uid]. *)
Definition staff_edit_order (db : DB) (uid oid : nat) (f : OrderForm) : DB * Response :=
  match find_order db oid with
  | None => (db, NotFound)
  | Some o =>
      if negb (Nat.eqb (order_staff_id o) uid) then (db, Rejected "You can only edit orders you created!")
      else
        match find_user db (order_staff_id o) with
        | None => (db, Crash)
        | Some su =>
            if String.eqb (user_role su) "admin" then (db, Rejected "You cannot edit admin orders!")
            else if negb (String.eqb (status o) "pending") then
              (db, Rejected "You can only edit pending orders!")
            else replace_order_contents db o f "Order updated successfully!"
        end
  end.

(** ** add_products_to_order *)

(** [db.session.add(item)] and [order.total_amount += product.rental_price]. *)
Definition add_item_to_order (db : DB) (oid : nat) (p : Product) : DB :=
  update_order (set_order_items db (order_items db ++ [mkOrderItem oid (product_id p) (rental_price p)]))
               oid (fun o => set_order_total (total_amount o + rental_price p) o).

Definition order_has_product (db : DB) (oid pid : nat) : bool :=
  existsb (fun it => Nat.eqb (item_order_id it) oid && Nat.eqb (item_product_id it) pid)
          (order_items db).

(** The POST loop; the session autoflushes, so every query sees the items
    added by earlier iterations.  [None]: [product.id] on a missing product. *)
Fixpoint add_products_loop (db : DB) (o : Order) (pids : list (option nat))
  (flashes : list string) : option (DB * list string) :=
  match pids with
  | [] => Some (db, flashes)
  | None :: pids' => add_products_loop db o pids' flashes
  | Some pid :: pids' =>
      let add_if_new :=
        if order_has_product db (order_id o) pid then add_products_loop db o pids' flashes
        else
          match find_product db pid with
          | None => None
          | Some p => add_products_loop (add_item_to_order db (order_id o) p) o pids' flashes
          end in
      match existing_booking db pid (delivery_date o) (return_date o) with
      | Some it =>
          if negb (Nat.eqb (item_order_id it) (order_id o)) then
            match find_product db pid with
            | None => None
            | Some p =>
                add_products_loop db o pids'
                  (flashes ++ ["Product " ++ product_code p ++ " is already booked!"])
            end
          else add_if_new
      | None => add_if_new
      end
  end.

(** [add_products_to_order] (POST) by the user [u]. *)
Definition add_products_to_order (db : DB) (u : User) (oid : nat) (pids : list (option nat))
  : DB * Response :=
  match find_order db oid with
  | None => (db, NotFound)
  | Some o =>
      let gate :=
        if String.eqb (user_role u) "staff" then
          if negb (Nat.eqb (order_staff_id o) (user_id u)) then
            Some (Rejected "You can only modify orders you created!")
          else
            match find_user db (order_staff_id o) with
            | None => Some Crash
            | Some su =>
                if String.eqb (user_role su) "admin" then Some (Rejected "You cannot modify admin orders!")
                else None
            end
        else None in
      match gate with
      | Some resp => (db, resp)
      | None =>
          if negb (String.eqb (status o) "pending") then (db, Rejected "Cannot modify approved orders")
          else
            match add_products_loop db o pids [] with
            | None => (db, Crash)
            | Some (db', fl) => (db', Done (fl ++ ["Products added successfully"]))
            end
      end
  end.

(** ** edit_product (admin, POST); image upload not modelled *)

Definition edit_product (db : DB) (pid : nat) (code name : string) (rprice deposit : Q)
  : DB * Response :=
  match find_product db pid with
  | None => (db, NotFound)
  | Some _ =>
      if existsb (fun q => String.eqb (product_code q) code && negb (Nat.eqb (product_id q) pid))
                 (products db)
      then (db, Crash)
      else
        (set_products db (map (fun q =>
           if Nat.eqb (product_id q) pid
           then mkProduct pid code name rprice deposit (product_is_active q)
           else q) (products db)),
         Done ["Product updated successfully"])
  end.

(** ** view_invoice: the invoice number shown, [None] for a 404, a failed
    commit, or the [IndexError] raised by [amount_in_words(order.total_amount)]
    while the page renders, after the commit *)

Definition find_invoice (db : DB) (oid : nat) : option Invoice :=
  find (fun i => Nat.eqb (invoice_order_id i) oid) (invoices db).

Definition view_invoice (db : DB) (oid : nat) : DB * option string :=
  match find_order db oid with
  | None => (db, None)
  | Some o =>
      let render (db' : DB) (n : string) :=
        match amount_in_words (total_amount o) with
        | Some _ => (db', Some n)
        | None => (db', None)
        end in
      match find_invoice db oid with
      | Some inv => render db (invoice_number inv)
      | None =>
          let n := generate_invoice_number db in
          if invoice_number_used db n then (db, None)
          else render (set_invoices db (invoices db ++ [mkInvoice (next_invoice_id db) n (order_id o)])) n
      end
  end.

(** ** check_availability (the JSON API) *)

Inductive AvailabilityResponse :=
  | ProductNotFound
  | ProductFound (p : Product) (bookings : list Order) (is_available : bool).

Definition check_availability (db : DB) (code : string) : AvailabilityResponse :=
  match find (fun p => String.eqb (product_code p) code) (products db) with
  | None => ProductNotFound
  | Some p =>
      let bookings := filter (fun o => order_has_product db (order_id o) (product_id p)
                                        && active_status (status o)) (orders db) in
      ProductFound p bookings (Nat.eqb (List.length bookings) 0)
  end.

(** ** update_order_status (admin): any status string, no transition check *)

Definition set_order_status (s : string) (o : Order) : Order :=
  mkOrder (order_id o) (transaction_id o) (order_customer_id o) (order_staff_id o)
          (delivery_date o) (return_date o) s (total_amount o) (notes o).

Definition update_order_status (db : DB) (oid : nat) (s : string) : DB * Response :=
  match find_order db oid with
  | None => (db, NotFound)
  | Some _ => (update_order db oid (set_order_status s), Done ["Order status updated to " ++ s])
  end.

(** ** Product administration *)

(** [toggle_product] (admin); the flash names the new state. *)
Definition toggle_product (db : DB) (pid : nat) : DB * Response :=
  match find_product db pid with
  | None => (db, NotFound)
  | Some p =>
      (set_products db (map (fun q =>
         if Nat.eqb (product_id q) pid
         then mkProduct (product_id q) (product_code q) (product_name q) (rental_price q)
                        (deposit_amount q) (negb (product_is_active q))
         else q) (products db)),
       Done ["Product " ++ (if negb (product_is_active p) then "activated" else "deactivated")
               ++ " successfully"])
  end.

(** [allowed_file]: [str.lower()] on ASCII letters. *)
Definition ascii_lower (c : ascii) : ascii :=
  let n := nat_of_ascii c in
  if Nat.leb 65 n && Nat.leb n 90 then ascii_of_nat (n + 32) else c.

Fixpoint str_lower (s : string) : string :=
  match s with
  | EmptyString => EmptyString
  | String c s' => String (ascii_lower c) (str_lower s')
  end.

(** [s.rsplit('.', 1)]: the text before and after the last dot, or [[s]]. *)
Fixpoint rsplit_dot (s : string) : list string :=
  match s with
  | EmptyString => [EmptyString]
  | String c s' =>
      match rsplit_dot s' with
      | [a; b] => [String c a; b]
      | _ => if Ascii.eqb c "." then [EmptyString; s'] else [s]
      end
  end.

(** [c in s] for a one-character [c]. *)
Definition has_dot (s : string) : bool :=
  existsb (fun c => Ascii.eqb c ".") (list_ascii_of_string s).

Definition allowed_extensions : list string := ["png"; "jpg"; "jpeg"; "gif"; "webp"].

(** [[1]] cannot raise once [has_dot] holds; its [None] branch is not reached. *)
Definition allowed_file (filename : string) : bool :=
  has_dot filename &&
  match nth_error (rsplit_dot filename) 1 with
  | Some ext => existsb (String.eqb (str_lower ext)) allowed_extensions
  | None => false
  end.

(** [str.strip()] with no argument removes what [str.isspace] accepts; on
    code points below 256 these are tab, newline, \v, \f, carriage return,
    \x1c to \x1f, space, \x85 and \xa0. *)
Definition is_space (c : ascii) : bool :=
  existsb (Ascii.eqb c)
    [" "; "009"; "010"; "011"; "012"; "013"; "028"; "029"; "030"; "031"; "133"; "160"]%char.

Fixpoint lstrip (s : string) : string :=
  match s with
  | EmptyString => EmptyString
  | String c s' => if is_space c then lstrip s' else s
  end.

Definition str_rev (s : string) : string := string_of_list_ascii (rev (list_ascii_of_string s)).

Definition py_strip (s : string) : string := str_rev (lstrip (str_rev (lstrip s))).

(** [Product.query.filter_by(product_code=code).first()] is not [None]. *)
Definition product_code_used (db : DB) (code : string) : bool :=
  existsb (fun p => String.eqb (product_code p) code) (products db).

Definition next_product_id (db : DB) : nat := S (max_key (map product_id (products db))).

(** [db.session.add(Product(...))]; [is_active] defaults to [True]. *)
Definition insert_product (db : DB) (code name : string) (rprice deposit : Q) : DB :=
  set_products db (products db ++ [mkProduct (next_product_id db) code name rprice deposit true]).

Section ProductForms.

(** [float(s)] on a form string; [None] is the [ValueError]. *)
Variable py_float : string -> option Q.

(** [add_product] (admin, POST); image upload not modelled.  Both [float]
    conversions run before the duplicate-code check. *)
Definition add_product (db : DB) (code name rprice deposit : string) : DB * Response :=
  match py_float rprice, py_float deposit with
  | Some rp, Some dp =>
      if product_code_used db code then (db, Rejected "Product code already exists")
      else (insert_product db code name rp dp, Done ["Product added successfully"])
  | _, _ => (db, Crash)
  end.

(** The [bulk_add_products] loop over row [i]; [None] is an uncaught
    [IndexError] ([names[i]], [rental_prices[i]]) or the [ValueError] of
    [float(price)].  The session autoflushes, so the duplicate-code query sees
    the rows added by earlier iterations.  Image upload not modelled. *)
Fixpoint bulk_add_loop (db : DB) (codes names prices deposits : list string)
  (i added skipped : nat) : option (DB * nat * nat) :=
  match codes with
  | [] => Some (db, added, skipped)
  | raw_code :: codes' =>
      match nth_error names i, nth_error prices i with
      | Some raw_name, Some raw_price =>
          let code := py_strip raw_code in
          let name := py_strip raw_name in
          let price := py_strip raw_price in
          if String.eqb code "" && String.eqb name "" && String.eqb price "" then
            bulk_add_loop db codes' names prices deposits (S i) added skipped
          else if String.eqb code "" || String.eqb name "" || String.eqb price "" then
            bulk_add_loop db codes' names prices deposits (S i) added (S skipped)
          else if product_code_used db code then
            bulk_add_loop db codes' names prices deposits (S i) added (S skipped)
          else
            let deposit :=
              match nth_error deposits i with
              | Some d =>
                  if String.eqb d "" then 0%Q
                  else match py_float d with Some q => q | None => 0%Q end
              | None => 0%Q
              end in
            match py_float price with
            | None => None
            | Some rp =>
                bulk_add_loop (insert_product db code name rp deposit) codes' names prices deposits
                              (S i) (S added) skipped
            end
      | _, _ => None
      end
  end.

(** [bulk_add_products] (admin, POST): commits only when a row was added. *)
Definition bulk_add_products (db : DB) (codes names prices deposits : list string) : DB * Response :=
  match bulk_add_loop db codes names prices deposits O O O with
  | None => (db, Crash)
  | Some (db', added, skipped) =>
      if Nat.ltb 0 added then
        (db', Done ((string_of_nat added ++ " products added successfully!") ::
                    (if Nat.ltb 0 skipped
                     then [string_of_nat skipped ++ " products skipped (duplicate code or missing info)"]
                     else [])))
      else (db, Rejected "No products were added. Please check your input.")
  end.

End ProductForms.

(** ** Specification-side predicates *)

(** The spec's overlap condition (section 4.1): an order in the active set
    [{pending, approved}] holds a line item for [pid] and its range
    [[d2, r2]] meets [[d1, r1]] with inclusive bounds. *)
Definition spec_conflict (db : DB) (pid : nat) (d1 r1 : Z) : Prop :=
  exists it o,
    In it (order_items db) /\ item_product_id it = pid /\ order_of db it = Some o /\
    (status o = "pending" \/ status o = "approved") /\
    (d1 <= return_date o)%Z /\ (delivery_date o <= r1)%Z.

Definition orders_well_formed (db : DB) : Prop :=
  forall o, In o (orders db) -> (delivery_date o <= return_date o)%Z.

(** ** Order totals *)

Definition sum_prices (l : list OrderItem) : Q := fold_right (fun it acc => price it + acc)%Q 0%Q l.

Definition sum_amounts (l : list OrderExtraCharge) : Q := fold_right (fun e acc => amount e + acc)%Q 0%Q l.

Definition items_of (db : DB) (oid : nat) : list OrderItem :=
  filter (fun it => Nat.eqb (item_order_id it) oid) (order_items db).

Definition extras_of (db : DB) (oid : nat) : list OrderExtraCharge :=
  filter (fun e => Nat.eqb (extra_order_id e) oid) (order_extra_charges db).

(** Order [oid] exists and its stored total is the sum of its line-item
    prices and of its extra-charge amounts. *)
Definition total_consistent (db : DB) (oid : nat) : Prop :=
  exists o, find_order db oid = Some o /\
            (total_amount o == sum_prices (items_of db oid) + sum_amounts (extras_of db oid))%Q.

(** Every item and extra-charge row refers to an order key in use. *)
Definition refs_ok (db : DB) : Prop :=
  (forall it, In it (order_items db) -> (item_order_id it < next_order_id db)%nat) /\
  (forall e, In e (order_extra_charges db) -> (extra_order_id e < next_order_id db)%nat).

(** The four order mutations. *)
Inductive Mutation :=
  | MCreate (staff : nat) (tx : string) (f : OrderForm)
  | MEdit (oid : nat) (f : OrderForm)
  | MStaffEdit (uid oid : nat) (f : OrderForm)
  | MAddProducts (u : User) (oid : nat) (pids : list (option nat)).

Definition run_mutation (db : DB) (m : Mutation) : DB * Response :=
  match m with
  | MCreate staff tx f => create_order db staff tx f
  | MEdit oid f => edit_order db oid f
  | MStaffEdit uid oid f => staff_edit_order db uid oid f
  | MAddProducts u oid pids => add_products_to_order db u oid pids
  end.

(** The order a mutation writes: the new one for create_order. *)
Definition mutated_order (db : DB) (m : Mutation) : nat :=
  match m with
  | MCreate _ _ _ => next_order_id db
  | MEdit oid _ | MStaffEdit _ oid _ | MAddProducts _ oid _ => oid
  end.

Definition form_with_dates (d r : Z) (f : OrderForm) : OrderForm :=
  mkOrderForm (form_customer_name f) (form_customer_phone f) (form_secondary_phone f)
              (form_customer_email f) (form_customer_address f) d r (form_notes f)
              (form_product_ids f) (form_accessory_names f) (form_accessory_remarks f)
              (form_extra_descriptions f) (form_extra_amounts f) (form_extra_remarks f).

(** The same mutation over another date range. *)
Definition mutation_with_dates (d r : Z) (m : Mutation) : Mutation :=
  match m with
  | MCreate staff tx f => MCreate staff tx (form_with_dates d r f)
  | MEdit oid f => MEdit oid (form_with_dates d r f)
  | MStaffEdit uid oid f => MStaffEdit uid oid (form_with_dates d r f)
  | MAddProducts u oid pids => MAddProducts u oid pids
  end.

(** The total a form yields: item prices then extra amounts, from 0. *)
Definition form_total (db : DB) (oid : nat) (f : OrderForm) : option Q :=
  let '(_, t1) := add_items db oid (form_product_ids f) 0 in
  option_map snd (add_extras oid (form_extra_descriptions f) (form_extra_amounts f)
                             (form_extra_remarks f) O t1).

(** The invoice rows of order [oid]. *)
Definition invoices_of (db : DB) (oid : nat) : list Invoice :=
  filter (fun i => Nat.eqb (invoice_order_id i) oid) (invoices db).

(** Every order moved to the range [g o], nothing else changed. *)
Definition redate_orders (g : Order -> Z * Z) (db : DB) : DB :=
  set_orders db (map (fun o => set_order_details (fst (g o)) (snd (g o)) (notes o) o) (orders db)).

(** Python's [int(s)] on a string of decimal digits. *)
Fixpoint nat_of_digits_acc (s : string) (acc : nat) : nat :=
  match s with
  | EmptyString => acc
  | String c s' => nat_of_digits_acc s' (acc * 10 + (nat_of_ascii c - 48))
  end.

Definition nat_of_digits (s : string) : nat := nat_of_digits_acc s O.

(** A character among ["0"] to ["9"]. *)
Definition is_digit (c : ascii) : bool :=
  Nat.leb 48 (nat_of_ascii c) && Nat.leb (nat_of_ascii c) 57.

(** The [i]-th invoice row (from 0) carries the number [INV-] and [i + 1]
    padded to five digits, the number generate_invoice_number gave it. *)
Definition invoices_sequential (db : DB) : Prop :=
  forall i inv, nth_error (invoices db) i = Some inv ->
    invoice_number inv = ("INV-" ++ pad5 (string_of_nat (S i)))%string.

(** Primary keys and the unique [product_code] column of the products table. *)
Definition products_ok (db : DB) : Prop :=
  NoDup (map product_id (products db)) /\ NoDup (map product_code (products db)).

(** Every invoice row refers to an order key in use. *)
Definition invoice_refs_ok (db : DB) : Prop :=
  forall i, In i (invoices db) -> (invoice_order_id i < next_order_id db)%nat.

(** ** A sample shop: three products, an admin and a staff member *)

Definition sample_db0 : DB :=
  mkDB [mkUser 1 "Admin" "admin"; mkUser 2 "Sam" "staff"]
       [mkProduct 1 "P001" "Gown" (500#1) (100#1) true;
        mkProduct 2 "P002" "Sherwani" (300#1) (50#1) true;
        mkProduct 3 "P003" "Dupatta" (150#1) (0#1) true]
       [] [] [] [] [] [].

(** A booking form for customer phone 999 with one accessory and one extra
    charge of 50. *)
Definition sample_form (d r : Z) (pids : list (option nat)) : OrderForm :=
  mkOrderForm "Asha" "999" "" "" "" d r "" pids ["Pin"] [] ["Fitting"] [Some (50#1)] [].

(** A form with no products and one extra charge of -100 (a discount). *)
Definition sample_discount_form : OrderForm :=
  mkOrderForm "Ravi" "777" "" "" "" 10 15 "" [] [] [] ["Discount"] [Some (-100#1)] [].

(** After staff member 2 books P001 for days 10 to 15 (order 1). *)
Definition sample_db1 : DB :=
  Eval vm_compute in fst (create_order sample_db0 2 "TX1" (sample_form 10 15 [Some 1%nat])).

(** Then books P002 for days 16 to 20 (order 2) and P001 for days 17 to 18
    (order 3). *)
Definition sample_db2 : DB :=
  Eval vm_compute in
    fst (create_order
           (fst (create_order sample_db1 2 "TX2" (sample_form 16 20 [Some 2%nat])))
           2 "TX3" (sample_form 17 18 [Some 1%nat])).

(** * Lemmas *)

Lemma active_status_true (s : string) :
  active_status s = true <-> s = "pending" \/ s = "approved".
Proof.
  unfold active_status. rewrite orb_true_iff, !String.eqb_eq. tauto.
Qed.

Lemma query_overlap_iff (o : Order) (d r : Z) :
  (d <= r)%Z -> (delivery_date o <= return_date o)%Z ->
  query_overlap o d r = true <-> (d <= return_date o /\ delivery_date o <= r)%Z.
Proof.
  intros Hdr Ho. unfold query_overlap.
  rewrite !orb_true_iff, !andb_true_iff, !Z.leb_le. lia.
Qed.

Lemma find_order_in (db : DB) (oid : nat) (o : Order) :
  find_order db oid = Some o -> In o (orders db) /\ order_id o = oid.
Proof.
  unfold find_order. intros H. apply find_some in H as [Hin Heq].
  split; [exact Hin | now apply Nat.eqb_eq].
Qed.

Lemma existing_booking_some (db : DB) (pid : nat) (d r : Z) :
  orders_well_formed db -> (d <= r)%Z ->
  existing_booking db pid d r <> None <-> spec_conflict db pid d r.
Proof.
  intros Hwf Hdr. unfold existing_booking, spec_conflict. split.
  - destruct (find _ _) as [it|] eqn:E; [intros _ | congruence].
    apply find_some in E as [Hin Hb]. unfold item_booked in Hb.
    apply andb_true_iff in Hb as [Hp Hb]. apply Nat.eqb_eq in Hp.
    destruct (order_of db it) as [o|] eqn:Eo; [|discriminate].
    apply andb_true_iff in Hb as [Hs Hov].
    pose proof (find_order_in _ _ _ Eo) as [Hino _].
    apply query_overlap_iff in Hov; [|exact Hdr|now apply Hwf].
    apply active_status_true in Hs.
    exists it, o. tauto.
  - intros (it & o & Hin & Hp & Eo & Hs & H1 & H2) E.
    pose proof (find_none _ _ E it Hin) as Hf. unfold item_booked in Hf.
    rewrite Hp, Nat.eqb_refl, Eo in Hf. simpl in Hf.
    pose proof (find_order_in _ _ _ Eo) as [Hino _].
    assert (active_status (status o) = true) as Ha by (now apply active_status_true).
    rewrite Ha in Hf. simpl in Hf.
    assert (query_overlap o d r = true) by (apply query_overlap_iff; auto; lia).
    congruence.
Qed.

Lemma first_booked_some (db : DB) (pids : list (option nat)) (d r : Z) (pid : nat) :
  first_booked db pids d r = Some pid ->
  In (Some pid) pids /\ existing_booking db pid d r <> None.
Proof.
  induction pids as [|[q|] pids IH]; simpl; try discriminate.
  - destruct (existing_booking db q d r) eqn:E.
    + intros [= <-]. split; [now left | congruence].
    + intros H. destruct (IH H). auto.
  - intros H. destruct (IH H). auto.
Qed.

Lemma first_booked_none (db : DB) (pids : list (option nat)) (d r : Z) :
  first_booked db pids d r = None <->
  forall pid, In (Some pid) pids -> existing_booking db pid d r = None.
Proof.
  induction pids as [|[q|] pids IH]; simpl.
  - split; [intros _ pid []|reflexivity].
  - destruct (existing_booking db q d r) eqn:E.
    + split; [discriminate|]. intros H. rewrite (H q (or_introl eq_refl)) in E. discriminate.
    + rewrite IH. split.
      * intros H pid [Heq|Hin]; [now injection Heq as <-|auto].
      * auto.
  - rewrite IH. split; [intros H pid [Heq|Hin]; [discriminate|auto]|auto].
Qed.

(** create_order answers [Rejected] exactly on the duplicate-booking path;
    past the check it either commits or crashes. *)
Lemma create_order_unbooked (db : DB) (staff : nat) (tx : string) (f : OrderForm) :
  first_booked db (form_product_ids f) (form_delivery_date f) (form_return_date f) = None ->
  (exists fl, snd (create_order db staff tx f) = Done fl) \/ create_order db staff tx f = (db, Crash).
Proof.
  intros Hn. unfold create_order. rewrite Hn.
  destruct (upsert_customer db f) as [db1 cid].
  destruct (add_items db1 _ _ _) as [items t1].
  destruct (add_extras _ _ _ _ _ _) as [[extras total]|]; [|now right].
  destruct (_ || _); [now right|left; eexists; reflexivity].
Qed.

Lemma create_order_booked (db : DB) (staff : nat) (tx : string) (f : OrderForm) (pid : nat) :
  first_booked db (form_product_ids f) (form_delivery_date f) (form_return_date f) = Some pid ->
  fst (create_order db staff tx f) = db /\
  ((exists p, find_product db pid = Some p /\
     snd (create_order db staff tx f) =
       Rejected ("Product " ++ product_code p ++ " is already booked for these dates!")) \/
   (find_product db pid = None /\ snd (create_order db staff tx f) = Crash)).
Proof.
  intros H. unfold create_order. rewrite H.
  destruct (find_product db pid) as [p|]; simpl; [split; [reflexivity|left; eauto]|auto].
Qed.

(** ** Lists and keys *)

Lemma filter_all_true {A} (f : A -> bool) (l : list A) :
  (forall x, In x l -> f x = true) -> filter f l = l.
Proof.
  induction l as [|x l IH]; simpl; intros H; [reflexivity|].
  rewrite (H x (or_introl eq_refl)), IH; auto.
Qed.

Lemma filter_all_false {A} (f : A -> bool) (l : list A) :
  (forall x, In x l -> f x = false) -> filter f l = [].
Proof.
  induction l as [|x l IH]; simpl; intros H; [reflexivity|].
  rewrite (H x (or_introl eq_refl)), IH; auto.
Qed.

Lemma max_key_ge (x : nat) (l : list nat) : In x l -> (x <= max_key l)%nat.
Proof.
  induction l as [|y l IH]; simpl; [intros []|].
  intros [<-|H]; [lia|specialize (IH H); lia].
Qed.

Lemma find_order_fresh (db : DB) (o : Order) :
  order_id o = next_order_id db ->
  find (fun o' => Nat.eqb (order_id o') (next_order_id db)) (orders db ++ [o]) = Some o.
Proof.
  intros Ho.
  assert (Hlt : forall o', In o' (orders db) -> (order_id o' < next_order_id db)%nat).
  { intros o' Hin. unfold next_order_id.
    pose proof (max_key_ge (order_id o') (map order_id (orders db)) (in_map _ _ _ Hin)). lia. }
  induction (orders db) as [|o' l IH]; simpl.
  - rewrite Ho, Nat.eqb_refl. reflexivity.
  - assert (Hne : Nat.eqb (order_id o') (next_order_id db) = false).
    { apply Nat.eqb_neq. specialize (Hlt o' (or_introl eq_refl)). lia. }
    rewrite Hne. apply IH. intros o'' Hin. apply Hlt. now right.
Qed.

Lemma find_update_order (db : DB) (oid : nat) (g : Order -> Order) :
  (forall o, order_id (g o) = order_id o) ->
  find_order (update_order db oid g) oid = option_map g (find_order db oid).
Proof.
  intros Hg. unfold find_order, update_order. simpl.
  induction (orders db) as [|o l IH]; simpl; [reflexivity|].
  destruct (Nat.eqb (order_id o) oid) eqn:E; simpl.
  - rewrite Hg, E. reflexivity.
  - rewrite E. exact IH.
Qed.

(** ** Totals *)

Lemma sum_prices_app (l1 l2 : list OrderItem) :
  (sum_prices (l1 ++ l2) == sum_prices l1 + sum_prices l2)%Q.
Proof. induction l1 as [|it l1 IH]; simpl; lra. Qed.

Lemma add_items_spec (db : DB) (oid : nat) (pids : list (option nat)) (t : Q)
  (items : list OrderItem) (t' : Q) :
  add_items db oid pids t = (items, t') ->
  (t' == t + sum_prices items)%Q /\
  forall it, In it items ->
    item_order_id it = oid /\
    exists p, find_product db (item_product_id it) = Some p /\ price it = rental_price p.
Proof.
  revert t items t'.
  induction pids as [|[pid|] pids IH]; simpl; intros t items t' H.
  - injection H as <- <-. simpl. split; [lra|intros _ []].
  - destruct (find_product db pid) as [p|] eqn:Ep; [|exact (IH _ _ _ H)].
    destruct (add_items db oid pids (t + rental_price p)) as [its t0] eqn:E.
    injection H as <- <-. destruct (IH _ _ _ E) as [Ht Hits]. simpl. split; [lra|].
    intros it [<-|Hin]; [|exact (Hits it Hin)].
    simpl. split; [reflexivity|]. exists p. split; [|reflexivity].
    unfold find_product in *. pose proof (find_some _ _ Ep) as [_ Hid].
    apply Nat.eqb_eq in Hid. rewrite Hid. exact Ep.
  - exact (IH _ _ _ H).
Qed.

Lemma add_extras_spec (oid : nat) (descs : list string) (amounts : list (option Q))
  (remarks : list string) (i : nat) (t : Q) (exs : list OrderExtraCharge) (t' : Q) :
  add_extras oid descs amounts remarks i t = Some (exs, t') ->
  (t' == t + sum_amounts exs)%Q /\ forall e, In e exs -> extra_order_id e = oid.
Proof.
  revert i t exs t'.
  induction descs as [|desc descs IH]; simpl; intros i t exs t' H.
  - injection H as <- <-. simpl. split; [lra|intros _ []].
  - destruct (String.eqb desc "") ; [exact (IH _ _ _ _ H)|].
    destruct (nth_error amounts i) as [[a|]|]; [|exact (IH _ _ _ _ H)|discriminate].
    destruct (add_extras oid descs amounts remarks (S i) (t + a)) as [[es t0]|] eqn:E;
      [|discriminate].
    injection H as <- <-. destruct (IH _ _ _ _ E) as [Ht Hes]. simpl. split; [lra|].
    intros e [<-|Hin]; [reflexivity|exact (Hes e Hin)].
Qed.

Lemma add_items_products (db db' : DB) (oid : nat) (pids : list (option nat)) (t : Q) :
  products db = products db' -> add_items db oid pids t = add_items db' oid pids t.
Proof.
  intros Hp. revert t.
  induction pids as [|[pid|] pids IH]; simpl; intros t; [reflexivity| |apply IH].
  replace (find_product db pid) with (find_product db' pid) by (unfold find_product; now rewrite Hp).
  destruct (find_product db' pid); rewrite ?IH; reflexivity.
Qed.

(** ** Successful mutations *)

Lemma upsert_customer_frame (db : DB) (f : OrderForm) :
  exists cs, fst (upsert_customer db f) = set_customers db cs.
Proof. unfold upsert_customer. destruct (find _ _); simpl; eauto. Qed.

Lemma update_order_customer_frame (db db1 : DB) (cid : nat) (f : OrderForm) :
  update_order_customer db cid f = Some db1 -> exists cs, db1 = set_customers db cs.
Proof. unfold update_order_customer. destruct (find _ _); intros H; [injection H as <-; eauto|discriminate]. Qed.

Lemma create_order_done (db : DB) (staff : nat) (tx : string) (f : OrderForm) (fl : list string) :
  snd (create_order db staff tx f) = Done fl ->
  exists items t1 extras total o,
    add_items db (next_order_id db) (form_product_ids f) 0 = (items, t1) /\
    add_extras (next_order_id db) (form_extra_descriptions f) (form_extra_amounts f)
               (form_extra_remarks f) O t1 = Some (extras, total) /\
    find_order (fst (create_order db staff tx f)) (next_order_id db) = Some o /\
    total_amount o = total /\
    order_items (fst (create_order db staff tx f)) = (order_items db ++ items)%list /\
    order_extra_charges (fst (create_order db staff tx f)) = (order_extra_charges db ++ extras)%list /\
    delivery_date o = form_delivery_date f /\ return_date o = form_return_date f.
Proof.
  unfold create_order.
  destruct (first_booked db (form_product_ids f) (form_delivery_date f) (form_return_date f)) as [pid|].
  { destruct (find_product db pid); discriminate. }
  pose proof (upsert_customer_frame db f) as [cs Hcs].
  destruct (upsert_customer db f) as [db1 cid]. simpl in Hcs. subst db1.
  rewrite (add_items_products (set_customers db cs) db) by reflexivity.
  change (next_order_id (set_customers db cs)) with (next_order_id db).
  destruct (add_items db (next_order_id db) (form_product_ids f) 0) as [items t1] eqn:Ei.
  destruct (add_extras _ _ _ _ _ t1) as [[extras total]|] eqn:Ee; [|discriminate].
  destruct (_ || _); [discriminate|]. intros _.
  do 5 eexists. split; [reflexivity|]. split; [exact Ee|].
  split; [apply (find_order_fresh db); reflexivity|].
  repeat split.
Qed.

Lemma replace_order_contents_done (db : DB) (o : Order) (f : OrderForm) (msg : string)
  (fl : list string) :
  find_order db (order_id o) = Some o ->
  snd (replace_order_contents db o f msg) = Done fl ->
  exists items t1 extras total o',
    add_items db (order_id o) (form_product_ids f) 0 = (items, t1) /\
    add_extras (order_id o) (form_extra_descriptions f) (form_extra_amounts f)
               (form_extra_remarks f) O t1 = Some (extras, total) /\
    find_order (fst (replace_order_contents db o f msg)) (order_id o) = Some o' /\
    total_amount o' = total /\
    items_of (fst (replace_order_contents db o f msg)) (order_id o) = items /\
    extras_of (fst (replace_order_contents db o f msg)) (order_id o) = extras.
Proof.
  intros Hf. unfold replace_order_contents.
  destruct (update_order_customer db (order_customer_id o) f) as [db1|] eqn:Ec; [|discriminate].
  apply update_order_customer_frame in Ec as [cs ->].
  set (db2 := update_order (set_customers db cs) (order_id o)
                (set_order_details (form_delivery_date f) (form_return_date f) (form_notes f))).
  rewrite (add_items_products db2 db) by reflexivity.
  destruct (add_items db (order_id o) (form_product_ids f) 0) as [items t1] eqn:Ei.
  destruct (add_extras _ _ _ _ _ t1) as [[extras total]|] eqn:Ee; [|discriminate].
  intros _. destruct (add_items_spec _ _ _ _ _ _ Ei) as [_ Hits].
  destruct (add_extras_spec _ _ _ _ _ _ _ _ Ee) as [_ Hexs].
  exists items, t1, extras, total,
    (set_order_total total
       (set_order_details (form_delivery_date f) (form_return_date f) (form_notes f) o)).
  assert (Hfo : find_order (update_order db2 (order_id o) (set_order_total total)) (order_id o) =
                Some (set_order_total total
                  (set_order_details (form_delivery_date f) (form_return_date f) (form_notes f) o))).
  { rewrite find_update_order by reflexivity. unfold db2.
    rewrite find_update_order by reflexivity.
    change (find_order (set_customers db cs) (order_id o)) with (find_order db (order_id o)).
    rewrite Hf. reflexivity. }
  split; [reflexivity|]. split; [exact Ee|]. split; [exact Hfo|].
  split; [reflexivity|]. unfold items_of, extras_of. simpl. rewrite !filter_app. split.
  - rewrite filter_all_false, filter_all_true; [reflexivity| |].
    + intros it Hin. apply Nat.eqb_eq. apply Hits, Hin.
    + intros it Hin. apply filter_In in Hin as [_ Hn]. now apply negb_true_iff in Hn.
  - rewrite filter_all_false, filter_all_true; [reflexivity| |].
    + intros e Hin. apply Nat.eqb_eq. apply Hexs, Hin.
    + intros e Hin. apply filter_In in Hin as [_ Hn]. now apply negb_true_iff in Hn.
Qed.

Lemma edit_order_done (db : DB) (oid : nat) (f : OrderForm) (fl : list string) :
  snd (edit_order db oid f) = Done fl ->
  exists o, find_order db oid = Some o /\
            edit_order db oid f = replace_order_contents db o f "Order updated successfully".
Proof.
  unfold edit_order. destruct (find_order db oid) as [o|]; [eauto|discriminate].
Qed.

Lemma staff_edit_order_done (db : DB) (uid oid : nat) (f : OrderForm) (fl : list string) :
  snd (staff_edit_order db uid oid f) = Done fl ->
  exists o, find_order db oid = Some o /\
            staff_edit_order db uid oid f = replace_order_contents db o f "Order updated successfully!" /\
            forall d r, staff_edit_order db uid oid (form_with_dates d r f) =
                        replace_order_contents db o (form_with_dates d r f) "Order updated successfully!".
Proof.
  unfold staff_edit_order. destruct (find_order db oid) as [o|]; [|discriminate].
  destruct (negb _); [discriminate|].
  destruct (find_user db (order_staff_id o)) as [su|]; [|discriminate].
  destruct (String.eqb (user_role su) "admin"); [discriminate|].
  destruct (negb _); [discriminate|]. eauto.
Qed.

Lemma add_item_to_order_consistent (db : DB) (oid : nat) (p : Product) :
  total_consistent db oid -> total_consistent (add_item_to_order db oid p) oid.
Proof.
  intros (o & Hf & Ht). exists (set_order_total (total_amount o + rental_price p) o). split.
  - unfold add_item_to_order. rewrite find_update_order by reflexivity.
    change (find_order (set_order_items db (order_items db ++ [mkOrderItem oid (product_id p) (rental_price p)])) oid)
      with (find_order db oid).
    rewrite Hf. reflexivity.
  - unfold items_of, extras_of. simpl. rewrite filter_app. simpl. rewrite Nat.eqb_refl.
    rewrite sum_prices_app. simpl. unfold items_of, extras_of in Ht. lra.
Qed.

Lemma add_products_loop_consistent (o : Order) (pids : list (option nat)) :
  forall db fl db' fl',
    total_consistent db (order_id o) ->
    add_products_loop db o pids fl = Some (db', fl') ->
    total_consistent db' (order_id o).
Proof.
  induction pids as [|[pid|] pids IH]; simpl; intros db fl db' fl' Hc H.
  - injection H as <- _. exact Hc.
  - destruct (existing_booking db pid (delivery_date o) (return_date o)) as [it|].
    + destruct (negb _).
      * destruct (find_product db pid); [exact (IH _ _ _ _ Hc H)|discriminate].
      * destruct (order_has_product db (order_id o) pid); [exact (IH _ _ _ _ Hc H)|].
        destruct (find_product db pid) as [p|]; [|discriminate].
        exact (IH _ _ _ _ (add_item_to_order_consistent _ _ p Hc) H).
    + destruct (order_has_product db (order_id o) pid); [exact (IH _ _ _ _ Hc H)|].
      destruct (find_product db pid) as [p|]; [|discriminate].
      exact (IH _ _ _ _ (add_item_to_order_consistent _ _ p Hc) H).
  - exact (IH _ _ _ _ Hc H).
Qed.

Lemma add_products_to_order_done (db : DB) (u : User) (oid : nat) (pids : list (option nat))
  (fl : list string) :
  snd (add_products_to_order db u oid pids) = Done fl ->
  exists o fl0, find_order db oid = Some o /\ String.eqb (status o) "pending" = true /\
    add_products_loop db o pids [] = Some (fst (add_products_to_order db u oid pids), fl0) /\
    fl = (fl0 ++ ["Products added successfully"])%list.
Proof.
  unfold add_products_to_order. destruct (find_order db oid) as [o|]; [|discriminate].
  cbv zeta.
  destruct (String.eqb (user_role u) "staff");
    [destruct (negb (Nat.eqb (order_staff_id o) (user_id u))); [discriminate|];
     destruct (find_user db (order_staff_id o)) as [su|]; [|discriminate];
     destruct (String.eqb (user_role su) "admin"); [discriminate|] |].
  all: destruct (negb (String.eqb (status o) "pending")) eqn:Es; [discriminate|].
  all: destruct (add_products_loop db o pids []) as [[db' fl0]|] eqn:El; [|discriminate].
  all: intros [= <-]; exists o, fl0; apply negb_false_iff in Es; repeat split; first [exact El | assumption | reflexivity].
Qed.

(** ** The add_products_to_order loop *)


Lemma find_ext_eq {A} (f g : A -> bool) (l : list A) :
  (forall x, f x = g x) -> find f l = find g l.
Proof. intros H. induction l as [|x l IH]; simpl; [reflexivity|]. rewrite H, IH. reflexivity. Qed.

Lemma find_order_update_other (db : DB) (oid x : nat) (g : Order -> Order) :
  (forall o, order_id (g o) = order_id o) ->
  find_order (update_order db oid g) x =
  option_map (fun o => if Nat.eqb (order_id o) oid then g o else o) (find_order db x).
Proof.
  intros Hg. unfold find_order, update_order. simpl.
  induction (orders db) as [|o l IH]; simpl; [reflexivity|].
  destruct (Nat.eqb (order_id o) oid) eqn:E;
    [rewrite Hg|]; destruct (Nat.eqb (order_id o) x); simpl; rewrite ?E; auto.
Qed.

Lemma item_booked_add_item (db : DB) (oid : nat) (p : Product) (pid : nat) (d r : Z) (it : OrderItem) :
  item_booked (add_item_to_order db oid p) pid d r it = item_booked db pid d r it.
Proof.
  unfold item_booked, order_of, add_item_to_order.
  rewrite find_order_update_other by reflexivity.
  change (find_order (set_order_items db (order_items db ++ [mkOrderItem oid (product_id p) (rental_price p)])) (item_order_id it))
    with (find_order db (item_order_id it)).
  destruct (find_order db (item_order_id it)) as [o|]; simpl; [|reflexivity].
  destruct (Nat.eqb (order_id o) oid); reflexivity.
Qed.

Lemma order_items_add_item (db : DB) (oid : nat) (p : Product) :
  order_items (add_item_to_order db oid p) =
  (order_items db ++ [mkOrderItem oid (product_id p) (rental_price p)])%list.
Proof. reflexivity. Qed.




Lemma find_app_some {A} (f : A -> bool) (l1 l2 : list A) (x : A) :
  find f l1 = Some x -> find f (l1 ++ l2) = Some x.
Proof. induction l1 as [|y l1 IH]; simpl; [discriminate|]. destruct (f y); [exact id|exact IH]. Qed.

Lemma existing_booking_add_item_some (db : DB) (oid : nat) (p : Product) (pid : nat) (d r : Z)
  (it : OrderItem) :
  existing_booking db pid d r = Some it ->
  existing_booking (add_item_to_order db oid p) pid d r = Some it.
Proof.
  unfold existing_booking. rewrite order_items_add_item.
  rewrite (find_ext_eq (item_booked (add_item_to_order db oid p) pid d r) (item_booked db pid d r))
    by (intros; apply item_booked_add_item).
  apply find_app_some.
Qed.

(** The flashes and prices of the loop: every new row is for a requested
    product at its [rental_price]; a requested product whose query finds a
    booking of another order gets its message and no row. *)
Lemma add_products_loop_skips (o : Order) (pids : list (option nat)) :
  forall db fl db' fl',
    add_products_loop db o pids fl = Some (db', fl') ->
    exists added more,
      order_items db' = (order_items db ++ added)%list /\
      fl' = (fl ++ more)%list /\
      (forall it, In it added ->
         In (Some (item_product_id it)) pids /\
         exists p, find_product db (item_product_id it) = Some p /\ price it = rental_price p) /\
      (forall pid it p, In (Some pid) pids ->
         existing_booking db pid (delivery_date o) (return_date o) = Some it ->
         item_order_id it <> order_id o -> find_product db pid = Some p ->
         In ("Product " ++ product_code p ++ " is already booked!") more /\
         forall it', In it' added -> item_product_id it' <> pid).
Proof.
  induction pids as [|[pid|] pids IH]; simpl; intros db fl db' fl' H.
  - injection H as <- <-. exists [], []. rewrite !app_nil_r.
    split; [reflexivity|]. split; [reflexivity|]. split; [intros _ []|intros pid it p []].
  - destruct (existing_booking db pid (delivery_date o) (return_date o)) as [it0|] eqn:Ee;
      [destruct (negb (Nat.eqb (item_order_id it0) (order_id o))) eqn:En|].
    + (* a booking of another order: flashed and skipped *)
      destruct (find_product db pid) as [p0|] eqn:Ep; [|discriminate].
      destruct (IH _ _ _ _ H) as (added & more & Hit & Hfl & Hadd & Hsk).
      apply negb_true_iff, Nat.eqb_neq in En.
      exists added, (("Product " ++ product_code p0 ++ " is already booked!")%string :: more).
      split; [exact Hit|]. split; [rewrite Hfl, <- app_assoc; reflexivity|]. split.
      { intros it Hin. destruct (Hadd it Hin) as [Hr Hp]. split; [right; exact Hr|exact Hp]. }
      intros q it p [Hq|Hin] Hb Hne Hp.
      * injection Hq as <-. rewrite Ee in Hb. injection Hb as <-. rewrite Ep in Hp. injection Hp as <-.
        split; [left; reflexivity|]. intros it' Hin' Heq.
        destruct (Hadd it' Hin') as [Hr _]. rewrite Heq in Hr.
        exact (proj2 (Hsk pid it0 p0 Hr Ee En Ep) it' Hin' Heq).
      * destruct (Hsk q it p Hin Hb Hne Hp) as [Hm Hno]. split; [right; exact Hm|exact Hno].
    + (* the booking found is this order's own row *)
      assert (Hown : forall it, existing_booking db pid (delivery_date o) (return_date o) = Some it ->
                                item_order_id it = order_id o).
      { intros it Hb. rewrite Ee in Hb. injection Hb as <-.
        apply negb_false_iff, Nat.eqb_eq in En. exact En. }
      clear Ee En it0.
      destruct (order_has_product db (order_id o) pid) eqn:Eh.
      * destruct (IH _ _ _ _ H) as (added & more & Hit & Hfl & Hadd & Hsk).
        exists added, more. split; [exact Hit|]. split; [exact Hfl|]. split.
        { intros it Hin. destruct (Hadd it Hin) as [Hr Hp]. split; [right; exact Hr|exact Hp]. }
        intros q it p [Hq|Hin] Hb Hne Hp.
        -- injection Hq as <-. exfalso. exact (Hne (Hown it Hb)).
        -- exact (Hsk q it p Hin Hb Hne Hp).
      * destruct (find_product db pid) as [p0|] eqn:Ep; [|discriminate].
        assert (Hpid : product_id p0 = pid).
        { unfold find_product in Ep. apply find_some in Ep as [_ Hid]. now apply Nat.eqb_eq. }
        destruct (IH _ _ _ _ H) as (added & more & Hit & Hfl & Hadd & Hsk).
        exists (mkOrderItem (order_id o) (product_id p0) (rental_price p0) :: added), more.
        split; [rewrite Hit, order_items_add_item, <- app_assoc; reflexivity|].
        split; [exact Hfl|]. split.
        { intros it [<-|Hin]; simpl.
          - split; [left; rewrite Hpid; reflexivity|]. exists p0. rewrite Hpid. split; [exact Ep|reflexivity].
          - destruct (Hadd it Hin) as [Hr Hp]. split; [right; exact Hr|exact Hp]. }
        intros q it p [Hq|Hin] Hb Hne Hp.
        -- injection Hq as <-. exfalso. exact (Hne (Hown it Hb)).
        -- destruct (Hsk q it p Hin (existing_booking_add_item_some _ _ _ _ _ _ _ Hb) Hne Hp) as [Hm Hno].
           split; [exact Hm|]. intros it' [<-|Hin'] Heq; [|exact (Hno it' Hin' Heq)].
           simpl in Heq. rewrite Hpid in Heq. subst q. exact (Hne (Hown it Hb)).
    + (* no booking at all *)
      assert (Hown : forall it, existing_booking db pid (delivery_date o) (return_date o) = Some it ->
                                item_order_id it = order_id o).
      { intros it Hb. rewrite Ee in Hb. discriminate. }
      clear Ee.
      destruct (order_has_product db (order_id o) pid) eqn:Eh.
      * destruct (IH _ _ _ _ H) as (added & more & Hit & Hfl & Hadd & Hsk).
        exists added, more. split; [exact Hit|]. split; [exact Hfl|]. split.
        { intros it Hin. destruct (Hadd it Hin) as [Hr Hp]. split; [right; exact Hr|exact Hp]. }
        intros q it p [Hq|Hin] Hb Hne Hp.
        -- injection Hq as <-. exfalso. exact (Hne (Hown it Hb)).
        -- exact (Hsk q it p Hin Hb Hne Hp).
      * destruct (find_product db pid) as [p0|] eqn:Ep; [|discriminate].
        assert (Hpid : product_id p0 = pid).
        { unfold find_product in Ep. apply find_some in Ep as [_ Hid]. now apply Nat.eqb_eq. }
        destruct (IH _ _ _ _ H) as (added & more & Hit & Hfl & Hadd & Hsk).
        exists (mkOrderItem (order_id o) (product_id p0) (rental_price p0) :: added), more.
        split; [rewrite Hit, order_items_add_item, <- app_assoc; reflexivity|].
        split; [exact Hfl|]. split.
        { intros it [<-|Hin]; simpl.
          - split; [left; rewrite Hpid; reflexivity|]. exists p0. rewrite Hpid. split; [exact Ep|reflexivity].
          - destruct (Hadd it Hin) as [Hr Hp]. split; [right; exact Hr|exact Hp]. }
        intros q it p [Hq|Hin] Hb Hne Hp.
        -- injection Hq as <-. exfalso. exact (Hne (Hown it Hb)).
        -- destruct (Hsk q it p Hin (existing_booking_add_item_some _ _ _ _ _ _ _ Hb) Hne Hp) as [Hm Hno].
           split; [exact Hm|]. intros it' [<-|Hin'] Heq; [|exact (Hno it' Hin' Heq)].
           simpl in Heq. rewrite Hpid in Heq. subst q. exact (Hne (Hown it Hb)).
  - destruct (IH _ _ _ _ H) as (added & more & Hit & Hfl & Hadd & Hsk).
    exists added, more. split; [exact Hit|]. split; [exact Hfl|]. split.
    + intros it Hin. destruct (Hadd it Hin) as [Hr Hp]. split; [right; exact Hr|exact Hp].
    + intros q it p [Hq|Hin]; [discriminate|exact (Hsk q it p Hin)].
Qed.

(** ** Invoices and the availability API *)

Lemma find_app_none_r {A} (f : A -> bool) (l1 l2 : list A) :
  find f l1 = None -> find f (l1 ++ l2) = find f l2.
Proof. induction l1 as [|x l1 IH]; simpl; [reflexivity|]. destruct (f x); [discriminate|exact IH]. Qed.

Lemma filter_map_invariant (f : Order -> bool) (h : Order -> Order) (l : list Order) :
  (forall x, f (h x) = f x) -> filter f (map h l) = map h (filter f l).
Proof.
  intros Hf. induction l as [|x l IH]; simpl; [reflexivity|].
  rewrite Hf. destruct (f x); simpl; rewrite IH; reflexivity.
Qed.

Lemma bookings_redate (g : Order -> Z * Z) (db : DB) (pid : nat) :
  filter (fun o => order_has_product (redate_orders g db) (order_id o) pid && active_status (status o))
         (orders (redate_orders g db)) =
  map (fun o => set_order_details (fst (g o)) (snd (g o)) (notes o) o)
      (filter (fun o => order_has_product db (order_id o) pid && active_status (status o)) (orders db)).
Proof.
  apply (filter_map_invariant
           (fun o => order_has_product db (order_id o) pid && active_status (status o))
           (fun o => set_order_details (fst (g o)) (snd (g o)) (notes o) o)).
  intros o. reflexivity.
Qed.

(** * Claims *)

(** C1: create_order rejects a request for products [pids] over
    [[d1, r1]] exactly when some requested product is held by a pending or
    approved order whose range [[d2, r2]] satisfies [d1 <= r2] and
    [d2 <= r1]; the query's three-clause disjunction agrees with that
    interval intersection on well-formed ranges, and orders of any other
    status never block. *)
Theorem create_order_blocks_iff_conflict (db : DB) (staff : nat) (tx : string) (f : OrderForm) :
  (form_delivery_date f <= form_return_date f)%Z ->
  orders_well_formed db ->
  (forall pid, In (Some pid) (form_product_ids f) -> find_product db pid <> None) ->
  ((exists m, snd (create_order db staff tx f) = Rejected m) <->
   exists pid, In (Some pid) (form_product_ids f) /\
               spec_conflict db pid (form_delivery_date f) (form_return_date f)).
Proof.
  intros Hdr Hwf Hprod. split.
  - intros [m Hm].
    destruct (first_booked db (form_product_ids f) (form_delivery_date f) (form_return_date f))
      as [pid|] eqn:E.
    + apply first_booked_some in E as [Hin Hb]. exists pid. split; [exact Hin|].
      now apply existing_booking_some.
    + destruct (create_order_unbooked db staff tx f E) as [[fl Hfl]|Hc].
      * congruence.
      * rewrite Hc in Hm. discriminate.
  - intros (pid & Hin & Hc).
    destruct (first_booked db (form_product_ids f) (form_delivery_date f) (form_return_date f))
      as [q|] eqn:E.
    + destruct (create_order_booked db staff tx f q E) as [_ [[p [_ Hr]]|[Hnone _]]].
      * eauto.
      * apply first_booked_some in E as [Hin' _]. exfalso. exact (Hprod q Hin' Hnone).
    + rewrite first_booked_none in E. apply existing_booking_some in Hc; [|exact Hwf|exact Hdr].
      exfalso. exact (Hc (E pid Hin)).
Qed.

Lemma create_order_blocks_iff_conflict_witness :
  (14 <= 20)%Z /\ orders_well_formed sample_db1 /\
  (forall pid, In (Some pid) [Some 1%nat] -> find_product sample_db1 pid <> None) /\
  ((exists m, snd (create_order sample_db1 2 "TX2" (sample_form 14 20 [Some 1%nat])) = Rejected m) <->
   exists pid, In (Some pid) [Some 1%nat] /\ spec_conflict sample_db1 pid 14 20).
Proof.
  assert (Hwf : orders_well_formed sample_db1).
  { intros o Hin. vm_compute in Hin. destruct Hin as [<-|[]]. vm_compute. discriminate. }
  assert (Hp : forall pid, In (Some pid) [Some 1%nat] -> find_product sample_db1 pid <> None).
  { intros pid [H|[]]. injection H as <-. vm_compute. discriminate. }
  split; [lia|]. split; [exact Hwf|]. split; [exact Hp|].
  apply (create_order_blocks_iff_conflict sample_db1 2 "TX2" (sample_form 14 20 [Some 1%nat]));
    [simpl; lia|exact Hwf|exact Hp].
Defined.

(** C5: when any requested product has a booking found by the
    duplicate-booking query, create_order aborts before any write: the
    database is unchanged (no customer, order, item, accessory, extra
    charge or invoice) and nothing is committed. *)
Theorem create_order_conflict_no_writes (db : DB) (staff : nat) (tx : string) (f : OrderForm) (pid : nat) :
  In (Some pid) (form_product_ids f) ->
  existing_booking db pid (form_delivery_date f) (form_return_date f) <> None ->
  fst (create_order db staff tx f) = db /\
  forall fl, snd (create_order db staff tx f) <> Done fl.
Proof.
  intros Hin Hb.
  destruct (first_booked db (form_product_ids f) (form_delivery_date f) (form_return_date f))
    as [q|] eqn:E.
  - destruct (create_order_booked db staff tx f q E) as [Hdb [[p [_ Hr]]|[_ Hr]]];
      split; try exact Hdb; intros fl; rewrite Hr; discriminate.
  - rewrite first_booked_none in E. exfalso. exact (Hb (E pid Hin)).
Qed.

Lemma create_order_conflict_no_writes_witness :
  In (Some 2%nat) [Some 2%nat; Some 1%nat] /\
  existing_booking sample_db1 1 14 20 <> None /\
  fst (create_order sample_db1 2 "TX2" (sample_form 14 20 [Some 2%nat; Some 1%nat])) = sample_db1 /\
  forall fl, snd (create_order sample_db1 2 "TX2" (sample_form 14 20 [Some 2%nat; Some 1%nat])) <> Done fl.
Proof.
  split; [simpl; auto|]. split; [vm_compute; discriminate|].
  apply (create_order_conflict_no_writes sample_db1 2 "TX2" (sample_form 14 20 [Some 2%nat; Some 1%nat]) 1);
    [simpl; auto|vm_compute; discriminate].
Defined.

(** C7: the reference values of amount_in_words. *)
Theorem amount_in_words_reference_values :
  amount_in_words 0 = Some "Zero Rupees Only" /\
  amount_in_words (100#1) = Some "One Hundred Rupees Only" /\
  amount_in_words (1500#1) = Some "One Thousand Five Hundred Rupees Only" /\
  amount_in_words (100000#1) = Some "One Lakh Rupees Only".
Proof. repeat split; vm_compute; reflexivity. Qed.

(** C8 (code bug): the zero test of amount_in_words runs before the
    [int(amount)] truncation, so an amount strictly between 0 and 1 is
    rendered from an empty word list, with a leading space. *)
Theorem amount_in_words_half_rupee :
  amount_in_words (1#2) = Some " Rupees Only".
Proof. vm_compute. reflexivity. Qed.

(** C2: after each order mutation that commits (create_order, edit_order,
    staff_edit_order, add_products_to_order), the order's stored total is
    the sum of its line-item prices and of its extra-charge amounts
    (accessories carry no amount).  add_products_to_order adds to the
    stored total, so it keeps the equation when the order had it before;
    create_order needs the rows of the other tables to point at existing
    orders.  Flat pricing: the same mutation over another date range stores
    the same total. *)
Theorem order_total_after_mutation :
  (forall db m fl,
     refs_ok db ->
     match m with MAddProducts _ oid _ => total_consistent db oid | _ => True end ->
     snd (run_mutation db m) = Done fl ->
     total_consistent (fst (run_mutation db m)) (mutated_order db m)) /\
  (forall db m d r fl1 fl2 o1 o2,
     snd (run_mutation db m) = Done fl1 ->
     snd (run_mutation db (mutation_with_dates d r m)) = Done fl2 ->
     find_order (fst (run_mutation db m)) (mutated_order db m) = Some o1 ->
     find_order (fst (run_mutation db (mutation_with_dates d r m))) (mutated_order db m) = Some o2 ->
     total_amount o1 = total_amount o2).
Proof.
  split.
  - intros db m fl Href Hpre H.
    destruct m as [staff tx f|oid f|uid oid f|u oid pids]; simpl in *.
    + destruct (create_order_done _ _ _ _ _ H)
        as (items & t1 & extras & total & o & Ei & Ee & Hf & Ht & Hit & Hex & _).
      destruct (add_items_spec _ _ _ _ _ _ Ei) as [Ht1 Hits].
      destruct (add_extras_spec _ _ _ _ _ _ _ _ Ee) as [Ht2 Hexs].
      destruct Href as [Hri Hre].
      exists o. split; [exact Hf|]. unfold items_of, extras_of. rewrite Hit, Hex, !filter_app.
      rewrite (filter_all_false _ (order_items db)), (filter_all_false _ (order_extra_charges db)),
              (filter_all_true _ items), (filter_all_true _ extras).
      * simpl. rewrite Ht. lra.
      * intros e Hin. apply Nat.eqb_eq, Hexs, Hin.
      * intros it Hin. apply Nat.eqb_eq, Hits, Hin.
      * intros e Hin. apply Nat.eqb_neq. specialize (Hre e Hin). lia.
      * intros it Hin. apply Nat.eqb_neq. specialize (Hri it Hin). lia.
    + destruct (edit_order_done _ _ _ _ H) as (o & Hf & He). rewrite He in *.
      pose proof (find_order_in _ _ _ Hf) as [_ Hid]. subst oid.
      destruct (replace_order_contents_done _ _ _ _ _ Hf H)
        as (items & t1 & extras & total & o' & Ei & Ee & Hf' & Ht & Hit & Hex).
      destruct (add_items_spec _ _ _ _ _ _ Ei) as [Ht1 _].
      destruct (add_extras_spec _ _ _ _ _ _ _ _ Ee) as [Ht2 _].
      exists o'. split; [exact Hf'|]. rewrite Hit, Hex, Ht. lra.
    + destruct (staff_edit_order_done _ _ _ _ _ H) as (o & Hf & He & _). rewrite He in *.
      pose proof (find_order_in _ _ _ Hf) as [_ Hid]. subst oid.
      destruct (replace_order_contents_done _ _ _ _ _ Hf H)
        as (items & t1 & extras & total & o' & Ei & Ee & Hf' & Ht & Hit & Hex).
      destruct (add_items_spec _ _ _ _ _ _ Ei) as [Ht1 _].
      destruct (add_extras_spec _ _ _ _ _ _ _ _ Ee) as [Ht2 _].
      exists o'. split; [exact Hf'|]. rewrite Hit, Hex, Ht. lra.
    + destruct (add_products_to_order_done _ _ _ _ _ H) as (o & fl0 & Hf & _ & Hl & _).
      pose proof (find_order_in _ _ _ Hf) as [_ Hid]. subst oid.
      exact (add_products_loop_consistent o pids db [] _ fl0 Hpre Hl).
  - intros db m d r fl1 fl2 o1 o2 H1 H2 F1 F2.
    destruct m as [staff tx f|oid f|uid oid f|u oid pids]; simpl in *.
    + destruct (create_order_done _ _ _ _ _ H1)
        as (items & t1 & extras & total & o & Ei & Ee & Hf & Ht & _).
      destruct (create_order_done _ _ _ _ _ H2)
        as (items' & t1' & extras' & total' & o' & Ei' & Ee' & Hf' & Ht' & _).
      simpl in Ei', Ee'. rewrite Ei in Ei'. injection Ei' as <- <-.
      rewrite Ee in Ee'. injection Ee' as <- <-. congruence.
    + destruct (edit_order_done _ _ _ _ H1) as (o & Hf & He). rewrite He in *.
      destruct (edit_order_done _ _ _ _ H2) as (o0 & Hf0 & He0). rewrite He0 in *.
      rewrite Hf in Hf0. injection Hf0 as <-.
      pose proof (find_order_in _ _ _ Hf) as [_ Hid]. subst oid.
      destruct (replace_order_contents_done _ _ _ _ _ Hf H1)
        as (items & t1 & extras & total & o' & Ei & Ee & Hf' & Ht & _).
      destruct (replace_order_contents_done _ _ _ _ _ Hf H2)
        as (items' & t1' & extras' & total' & o'' & Ei' & Ee' & Hf'' & Ht' & _).
      simpl in Ei', Ee'. rewrite Ei in Ei'. injection Ei' as <- <-.
      rewrite Ee in Ee'. injection Ee' as <- <-. congruence.
    + destruct (staff_edit_order_done _ _ _ _ _ H1) as (o & Hf & He & Hw). rewrite He in *.
      rewrite Hw in H2, F2.
      pose proof (find_order_in _ _ _ Hf) as [_ Hid]. subst oid.
      destruct (replace_order_contents_done _ _ _ _ _ Hf H1)
        as (items & t1 & extras & total & o' & Ei & Ee & Hf' & Ht & _).
      destruct (replace_order_contents_done _ _ _ _ _ Hf H2)
        as (items' & t1' & extras' & total' & o'' & Ei' & Ee' & Hf'' & Ht' & _).
      simpl in Ei', Ee'. rewrite Ei in Ei'. injection Ei' as <- <-.
      rewrite Ee in Ee'. injection Ee' as <- <-. congruence.
    + congruence.
Qed.




(** C4, counterexample: create_order has no date validation; a request
    with delivery day 20 after return day 10 commits an order with exactly
    those dates. *)
Lemma create_order_reversed_dates :
  (20 > 10)%Z /\
  snd (create_order sample_db0 2 "TX1" (sample_form 20 10 [Some 1%nat])) =
    Done ["Order created successfully"] /\
  map (fun o => (delivery_date o, return_date o))
      (orders (fst (create_order sample_db0 2 "TX1" (sample_form 20 10 [Some 1%nat])))) = [(20, 10)%Z].
Proof. split; [lia|]. vm_compute. split; reflexivity. Qed.

(** C4, as the code does it: create_order never checks
    [delivery_date <= return_date].  Its only rejection is the
    duplicate-booking check; a committed order stores the requested dates
    as given, whatever their order; and the dates play no other part: two
    requests that differ only in their dates and pass the booking check
    get the same answer, so a reversed range is committed exactly when a
    well-ordered one would be. *)
Theorem create_order_no_date_check :
  (forall db staff tx f m,
     snd (create_order db staff tx f) = Rejected m ->
     first_booked db (form_product_ids f) (form_delivery_date f) (form_return_date f) <> None) /\
  (forall db staff tx f fl,
     snd (create_order db staff tx f) = Done fl ->
     exists o, find_order (fst (create_order db staff tx f)) (next_order_id db) = Some o /\
               delivery_date o = form_delivery_date f /\ return_date o = form_return_date f) /\
  (forall db staff tx f d r d' r',
     first_booked db (form_product_ids f) d r = None ->
     first_booked db (form_product_ids f) d' r' = None ->
     snd (create_order db staff tx (form_with_dates d r f)) =
     snd (create_order db staff tx (form_with_dates d' r' f))).
Proof.
  split; [|split].
  3:{ intros db staff tx f d r d' r' E1 E2.
      assert (Hu : forall d r, upsert_customer db (form_with_dates d r f) = upsert_customer db f)
        by reflexivity.
      unfold create_order. rewrite !Hu.
      cbn [form_with_dates form_product_ids form_delivery_date form_return_date form_notes
           form_accessory_names form_accessory_remarks form_extra_descriptions form_extra_amounts
           form_extra_remarks].
      rewrite E1, E2. destruct (upsert_customer db f) as [db1 cid].
      destruct (add_items db1 (next_order_id db1) (form_product_ids f) 0) as [items t1].
      destruct (add_extras _ _ _ _ _ t1) as [[extras total]|]; [|reflexivity].
      destruct (_ || _); reflexivity. }
  - intros db staff tx f m H E.
    destruct (create_order_unbooked db staff tx f E) as [[fl Hfl]|Hc]; [congruence|].
    rewrite Hc in H. discriminate.
  - intros db staff tx f fl H.
    destruct (create_order_done _ _ _ _ _ H)
      as (items & t1 & extras & total & o & _ & _ & Hf & _ & _ & _ & Hd & Hr).
    eauto.
Qed.

Lemma create_order_no_date_check_witness :
  first_booked sample_db1 [Some 2%nat] 20 16 = None /\
  first_booked sample_db1 [Some 2%nat] 16 20 = None /\
  snd (create_order sample_db1 2 "TX2" (form_with_dates 20 16 (sample_form 0 0 [Some 2%nat]))) =
  snd (create_order sample_db1 2 "TX2" (form_with_dates 16 20 (sample_form 0 0 [Some 2%nat]))).
Proof.
  split; [vm_compute; reflexivity|]. split; [vm_compute; reflexivity|].
  apply (proj2 (proj2 create_order_no_date_check)); vm_compute; reflexivity.
Defined.

Lemma replace_order_contents_prices (db : DB) (o : Order) (f : OrderForm) (msg : string)
  (it : OrderItem) :
  In it (order_items (fst (replace_order_contents db o f msg))) ->
  In it (order_items db) \/
  exists p, find_product db (item_product_id it) = Some p /\ price it = rental_price p.
Proof.
  unfold replace_order_contents.
  destruct (update_order_customer db (order_customer_id o) f) as [db1|] eqn:Ec;
    [|intros Hin; left; exact Hin].
  apply update_order_customer_frame in Ec as [cs ->].
  rewrite (add_items_products _ db) by reflexivity.
  destruct (add_items db (order_id o) (form_product_ids f) 0) as [items t1] eqn:Ei.
  destruct (add_extras _ _ _ _ _ _) as [[extras total]|]; [|intros Hin; left; exact Hin].
  cbn [fst order_items]. intros Hin. apply in_app_or in Hin as [Hin|Hin].
  - left. apply filter_In in Hin as [Hin _]. exact Hin.
  - right. exact (proj2 (proj2 (add_items_spec _ _ _ _ _ _ Ei) it Hin)).
Qed.

Lemma add_products_to_order_prices (db : DB) (u : User) (oid : nat) (pids : list (option nat))
  (it : OrderItem) :
  In it (order_items (fst (add_products_to_order db u oid pids))) ->
  In it (order_items db) \/
  exists p, find_product db (item_product_id it) = Some p /\ price it = rental_price p.
Proof.
  intros Hin. destruct (snd (add_products_to_order db u oid pids)) eqn:Hs.
  2-4: left; unfold add_products_to_order in *;
    destruct (find_order db oid) as [o|]; [|exact Hin]; cbv zeta in *;
    destruct (String.eqb (user_role u) "staff");
    [destruct (negb (Nat.eqb (order_staff_id o) (user_id u))); [exact Hin|];
     destruct (find_user db (order_staff_id o)) as [su|]; [|exact Hin];
     destruct (String.eqb (user_role su) "admin"); [exact Hin|] |];
    (destruct (negb (String.eqb (status o) "pending")); [exact Hin|]);
    (destruct (add_products_loop db o pids []) as [[db' fl0]|]; [discriminate|exact Hin]).
  destruct (add_products_to_order_done _ _ _ _ _ Hs) as (o & fl0 & _ & _ & Hl & _).
  destruct (add_products_loop_skips _ _ _ _ _ _ Hl) as (added & more & Hit & _ & Hadd & _).
  rewrite Hit in Hin. apply in_app_or in Hin as [Hin|Hin]; [now left|right].
  exact (proj2 (Hadd it Hin)).
Qed.

(** C6: an item row stores the product's [rental_price] when it is added,
    by any of the four order mutations (create_order, edit_order,
    staff_edit_order, add_products_to_order): every item row after the
    mutation was already there or carries the rental price of its product;
    and edit_product (code, name, price, deposit) leaves every item row of
    every order unchanged. *)
Theorem item_price_snapshot :
  (forall db pid code name rprice deposit,
     order_items (fst (edit_product db pid code name rprice deposit)) = order_items db) /\
  (forall db m it,
     In it (order_items (fst (run_mutation db m))) ->
     In it (order_items db) \/
     exists p, find_product db (item_product_id it) = Some p /\ price it = rental_price p).
Proof.
  split.
  - intros db pid code name rprice deposit. unfold edit_product.
    destruct (find_product db pid); [|reflexivity].
    destruct (existsb _ _); reflexivity.
  - intros db [staff tx f|oid f|uid oid f|u oid pids] it Hin; cbn [run_mutation] in Hin.
    2: { unfold edit_order in Hin. destruct (find_order db oid) as [o|]; [|now left].
         exact (replace_order_contents_prices _ _ _ _ _ Hin). }
    2: { unfold staff_edit_order in Hin. destruct (find_order db oid) as [o|]; [|now left].
         destruct (negb _); [now left|]. destruct (find_user _ _); [|now left].
         destruct (String.eqb _ _); [now left|]. destruct (negb _); [now left|].
         exact (replace_order_contents_prices _ _ _ _ _ Hin). }
    2: exact (add_products_to_order_prices _ _ _ _ _ Hin).
    destruct (snd (create_order db staff tx f)) eqn:Hs.
    + destruct (create_order_done _ _ _ _ _ Hs)
        as (items & t1 & extras & total & o & Ei & _ & _ & _ & Hit & _).
      rewrite Hit in Hin. apply in_app_or in Hin as [Hin|Hin]; [now left|right].
      exact (proj2 (proj2 (add_items_spec _ _ _ _ _ _ Ei) it Hin)).
    + left. unfold create_order in *.
      destruct (first_booked _ _ _ _) as [q|].
      { destruct (find_product db q); exact Hin. }
      destruct (upsert_customer db f) as [db1 cid].
      destruct (add_items db1 _ _ _) as [items t1].
      destruct (add_extras _ _ _ _ _ _) as [[extras total]|]; [|exact Hin].
      destruct (_ || _); [exact Hin|discriminate].
    + left. unfold create_order in *.
      destruct (first_booked _ _ _ _) as [q|].
      { destruct (find_product db q); [discriminate|exact Hin]. }
      destruct (upsert_customer db f) as [db1 cid].
      destruct (add_items db1 _ _ _) as [items t1].
      destruct (add_extras _ _ _ _ _ _) as [[extras total]|]; [|discriminate].
      destruct (_ || _); discriminate.
    + left. unfold create_order in *.
      destruct (first_booked _ _ _ _) as [q|].
      { destruct (find_product db q); [discriminate|exact Hin]. }
      destruct (upsert_customer db f) as [db1 cid].
      destruct (add_items db1 _ _ _) as [items t1].
      destruct (add_extras _ _ _ _ _ _) as [[extras total]|]; [|exact Hin].
      destruct (_ || _); [exact Hin|discriminate].
Qed.

(** C9: view_invoice is idempotent: a second view of the same order shows
    the same invoice number and writes nothing; an existing invoice is
    reused, and an order never ends up with more invoice rows than
    [max 1 n], [n] being the rows it had. *)
Theorem view_invoice_idempotent (db : DB) (oid : nat) :
  view_invoice (fst (view_invoice db oid)) oid = view_invoice db oid /\
  (find_invoice db oid <> None -> fst (view_invoice db oid) = db) /\
  (List.length (invoices_of (fst (view_invoice db oid)) oid) <=
   Nat.max 1 (List.length (invoices_of db oid)))%nat.
Proof.
  unfold view_invoice.
  destruct (find_order db oid) as [o|] eqn:Ef;
    [|simpl; rewrite Ef; split; [reflexivity|split; [auto|destruct (List.length (invoices_of db oid)); lia]]].
  cbv zeta.
  destruct (find_invoice db oid) as [inv|] eqn:Ei.
  { destruct (amount_in_words (total_amount o)) eqn:Ea; simpl; rewrite Ef, Ei, Ea;
      (split; [reflexivity|split; [auto|destruct (List.length (invoices_of db oid)); lia]]). }
  destruct (invoice_number_used db (generate_invoice_number db)) eqn:Eu.
  { simpl. rewrite Ef, Ei, Eu. split; [reflexivity|split; [auto|destruct (List.length (invoices_of db oid)); lia]]. }
  pose proof (find_order_in _ _ _ Ef) as [_ Hid].
  set (inv := mkInvoice (next_invoice_id db) (generate_invoice_number db) (order_id o)).
  assert (Hnone : invoices_of db oid = []).
  { apply filter_all_false. intros i Hin. exact (find_none _ _ Ei i Hin). }
  assert (Hfo : find_order (set_invoices db (invoices db ++ [inv])) oid = Some o) by exact Ef.
  assert (Hfi : find_invoice (set_invoices db (invoices db ++ [inv])) oid = Some inv).
  { unfold find_invoice. simpl. rewrite (find_app_none_r _ _ _ Ei). simpl.
    rewrite Hid, Nat.eqb_refl. reflexivity. }
  assert (Hlen : (List.length (invoices_of (set_invoices db (invoices db ++ [inv])) oid) <=
                  Nat.max 1 (List.length (invoices_of db oid)))%nat).
  { unfold invoices_of in *. simpl. rewrite filter_app, Hnone. simpl.
    rewrite Hid, Nat.eqb_refl. simpl. lia. }
  destruct (amount_in_words (total_amount o)) eqn:Ea; cbn [fst snd];
    rewrite Hfo, Hfi, Ea; cbn [invoice_number inv];
    (split; [reflexivity|split; [intros H; exfalso; exact (H eq_refl)|exact Hlen]]).
Qed.

(** C10: the availability API takes no dates: a found product is reported
    available exactly when no pending or approved order holds a line item
    for it, and moving any orders to other date ranges changes nothing in
    the answer's [is_available]. *)
Theorem check_availability_ignores_dates (db : DB) (code : string) (p : Product)
  (bookings : list Order) (avail : bool) :
  check_availability db code = ProductFound p bookings avail ->
  (avail = true <->
   ~ exists o it, In o (orders db) /\ (status o = "pending" \/ status o = "approved") /\
                  In it (order_items db) /\ item_order_id it = order_id o /\
                  item_product_id it = product_id p) /\
  (forall g : Order -> Z * Z,
     exists bookings', check_availability (redate_orders g db) code = ProductFound p bookings' avail).
Proof.
  unfold check_availability.
  destruct (find (fun q => String.eqb (product_code q) code) (products db)) as [q|] eqn:Ep;
    [|discriminate].
  intros H. injection H as <- <- <-. split.
  - rewrite Nat.eqb_eq, length_zero_iff_nil. split.
    + intros Hnil (o & it & Ho & Hs & Hit & Hio & Hip).
      assert (Hin : In o (filter (fun o => order_has_product db (order_id o) (product_id q)
                                           && active_status (status o)) (orders db))).
      { apply filter_In. split; [exact Ho|]. apply andb_true_iff. split.
        - apply existsb_exists. exists it. split; [exact Hit|].
          rewrite Hio, Hip, !Nat.eqb_refl. reflexivity.
        - now apply active_status_true. }
      rewrite Hnil in Hin. exact Hin.
    + intros Hno. apply filter_all_false. intros o Ho.
      destruct (order_has_product db (order_id o) (product_id q)) eqn:Eh; [|reflexivity].
      destruct (active_status (status o)) eqn:Ea; [|reflexivity].
      exfalso. apply Hno. apply existsb_exists in Eh as (it & Hit & Hb).
      apply andb_true_iff in Hb as [Hio Hip]. apply Nat.eqb_eq in Hio, Hip.
      apply active_status_true in Ea. exists o, it. auto.
  - intros g. eexists. unfold check_availability.
    change (products (redate_orders g db)) with (products db). rewrite Ep.
    rewrite bookings_redate, length_map. reflexivity.
Qed.

Lemma check_availability_ignores_dates_witness :
  check_availability sample_db1 "P001" =
    ProductFound (mkProduct 1 "P001" "Gown" (500#1) (100#1) true)
                 (orders sample_db1) false /\
  (false = true <->
   ~ exists o it, In o (orders sample_db1) /\ (status o = "pending" \/ status o = "approved") /\
                  In it (order_items sample_db1) /\ item_order_id it = order_id o /\
                  item_product_id it = 1%nat) /\
  (forall g : Order -> Z * Z,
     exists bookings', check_availability (redate_orders g sample_db1) "P001" =
                       ProductFound (mkProduct 1 "P001" "Gown" (500#1) (100#1) true) bookings' false).
Proof.
  split; [vm_compute; reflexivity|].
  apply (check_availability_ignores_dates sample_db1 "P001"
           (mkProduct 1 "P001" "Gown" (500#1) (100#1) true) (orders sample_db1) false).
  vm_compute. reflexivity.
Defined.

(** * Further properties of the handlers *)

(** ** Helpers *)

Lemma find_map {A B} (f : B -> bool) (g : A -> B) (l : list A) :
  find f (map g l) = option_map g (find (fun x => f (g x)) l).
Proof. induction l as [|x l IH]; simpl; [reflexivity|]. destruct (f (g x)); [reflexivity|exact IH]. Qed.

Lemma set_products_same (db : DB) : set_products db (products db) = db.
Proof. destruct db; reflexivity. Qed.

Lemma find_order_set_status (db : DB) (oid : nat) (s : string) (o : Order) :
  find_order db oid = Some o ->
  find_order (fst (update_order_status db oid s)) oid = Some (set_order_status s o).
Proof.
  intros Hf. unfold update_order_status. rewrite Hf. simpl.
  rewrite find_update_order by reflexivity. rewrite Hf. reflexivity.
Qed.

(** The projection of a product that create_order reads. *)
Definition product_view (p : Product) : nat * string * Q :=
  (product_id p, product_code p, rental_price p).

Lemma add_items_view (db db' : DB) (oid : nat) (pids : list (option nat)) (t : Q) :
  (forall pid, option_map product_view (find_product db pid) =
               option_map product_view (find_product db' pid)) ->
  add_items db oid pids t = add_items db' oid pids t.
Proof.
  intros Hv. revert t. induction pids as [|[pid|] pids IH]; intros t; simpl; [reflexivity| |apply IH].
  specialize (Hv pid).
  destruct (find_product db pid) as [p|], (find_product db' pid) as [p'|]; simpl in Hv;
    try discriminate; [|apply IH].
  injection Hv as Hid Hcode Hpr. rewrite Hid, Hpr, IH. reflexivity.
Qed.

Lemma first_booked_ext (db db' : DB) (pids : list (option nat)) (d r : Z) :
  order_items db = order_items db' -> orders db = orders db' ->
  first_booked db pids d r = first_booked db' pids d r.
Proof.
  intros Hi Ho. induction pids as [|[pid|] pids IH]; simpl; [reflexivity| |exact IH].
  assert (E : existing_booking db pid d r = existing_booking db' pid d r).
  { unfold existing_booking, item_booked, order_of, find_order. rewrite Hi, Ho. reflexivity. }
  rewrite E, IH. reflexivity.
Qed.

Lemma upsert_customer_products (db : DB) (ps : list Product) (f : OrderForm) :
  upsert_customer (set_products db ps) f =
  (set_products (fst (upsert_customer db f)) ps, snd (upsert_customer db f)).
Proof. unfold upsert_customer. simpl. destruct (find _ _); reflexivity. Qed.

(** create_order reads the products table only through [product_view]. *)
Lemma create_order_products (db : DB) (ps : list Product) (staff : nat) (tx : string) (f : OrderForm) :
  (forall pid, option_map product_view (find_product (set_products db ps) pid) =
               option_map product_view (find_product db pid)) ->
  create_order (set_products db ps) staff tx f =
  (set_products (fst (create_order db staff tx f)) ps, snd (create_order db staff tx f)).
Proof.
  intros Hv. unfold create_order.
  rewrite (first_booked_ext (set_products db ps) db) by reflexivity.
  destruct (first_booked db _ _ _) as [pid|].
  { specialize (Hv pid).
    destruct (find_product (set_products db ps) pid) as [p|], (find_product db pid) as [p'|];
      simpl in Hv; try discriminate; [|reflexivity].
    injection Hv as _ Hcode _. simpl. rewrite Hcode. reflexivity. }
  rewrite upsert_customer_products.
  pose proof (upsert_customer_frame db f) as [cs Hcs].
  destruct (upsert_customer db f) as [db1 cid]. simpl fst in Hcs. subst db1. simpl fst. simpl snd.
  rewrite (add_items_view (set_products (set_customers db cs) ps) (set_customers db cs)) by exact Hv.
  destruct (add_items (set_customers db cs) _ _ _) as [items t1].
  destruct (add_extras _ _ _ _ _ _) as [[extras total]|]; [|reflexivity].
  destruct (_ || _); reflexivity.
Qed.

Lemma toggle_product_view (db : DB) (pid : nat) :
  forall x, option_map product_view (find_product (fst (toggle_product db pid)) x) =
            option_map product_view (find_product db x).
Proof.
  intros x. unfold toggle_product. destruct (find_product db pid); [|reflexivity].
  unfold find_product. simpl. rewrite find_map.
  erewrite find_ext_eq by (intros q; destruct (Nat.eqb (product_id q) pid); reflexivity).
  destruct (find _ _) as [q|]; simpl; [|reflexivity].
  destruct (Nat.eqb (product_id q) pid); reflexivity.
Qed.

(** ** Extras: update_order_status and toggle_product *)

(** X1: update_order_status to a status outside [{pending, approved}]
    releases the order: none of its items counts as a booking any more,
    whatever the product and dates, while the items of every other order
    keep their booking state. *)
Theorem update_order_status_releases_items (db : DB) (oid : nat) (s : string) :
  active_status s = false ->
  (forall it pid d r, item_order_id it = oid ->
     item_booked (fst (update_order_status db oid s)) pid d r it = false) /\
  (forall it pid d r, item_order_id it <> oid ->
     item_booked (fst (update_order_status db oid s)) pid d r it = item_booked db pid d r it).
Proof.
  intros Hs. unfold update_order_status.
  destruct (find_order db oid) as [o|] eqn:Ef; simpl fst.
  - split; intros it pid d r Hit; unfold item_booked, order_of.
    + rewrite Hit, find_update_order by reflexivity. rewrite Ef. simpl. rewrite Hs, andb_false_r.
      reflexivity.
    + rewrite find_order_update_other by reflexivity.
      destruct (find_order db (item_order_id it)) as [o'|] eqn:Eo; simpl; [|reflexivity].
      apply find_order_in in Eo as [_ Hid]. rewrite Hid.
      apply Nat.eqb_neq in Hit. rewrite Hit. reflexivity.
  - split; intros it pid d r Hit; [|reflexivity].
    unfold item_booked, order_of. rewrite Hit, Ef. apply andb_false_r.
Qed.

Lemma update_order_status_releases_items_witness :
  active_status "completed" = false /\
  item_booked sample_db1 1 10 15 (mkOrderItem 1 1 (500#1)) = true /\
  item_booked (fst (update_order_status sample_db1 1 "completed")) 1 10 15 (mkOrderItem 1 1 (500#1)) = false.
Proof.
  split; [reflexivity|]. split; [vm_compute; reflexivity|].
  exact (proj1 (update_order_status_releases_items sample_db1 1 "completed" eq_refl)
               (mkOrderItem 1 1 (500#1)) 1%nat 10 15 eq_refl).
Defined.

(** X2: update_order_status keeps every order's stored total equal to the
    sum of its item prices and extra-charge amounts when it was before. *)
Theorem update_order_status_keeps_totals (db : DB) (oid oid' : nat) (s : string) :
  total_consistent db oid' -> total_consistent (fst (update_order_status db oid s)) oid'.
Proof.
  unfold update_order_status. destruct (find_order db oid); simpl fst; [|exact id].
  intros (o' & Hf & Ht).
  exists (if Nat.eqb (order_id o') oid then set_order_status s o' else o'). split.
  - rewrite find_order_update_other by reflexivity. rewrite Hf. reflexivity.
  - destruct (Nat.eqb (order_id o') oid); exact Ht.
Qed.

Lemma update_order_status_keeps_totals_witness :
  total_consistent sample_db1 1 /\
  total_consistent (fst (update_order_status sample_db1 1 "cancelled")) 1.
Proof.
  assert (H : total_consistent sample_db1 1).
  { eexists. split; [vm_compute; reflexivity|]. vm_compute. reflexivity. }
  split; [exact H|]. exact (update_order_status_keeps_totals sample_db1 1 1 "cancelled" H).
Defined.

(** X3: update_order_status has no transition check: setting an order
    back to "pending" (from "approved", "completed", or any other status)
    makes it editable again by the staff member who created it, unless that
    creator is an admin. *)
Theorem update_order_status_reopens_staff_edit (db : DB) (uid oid : nat) (o : Order) (su : User)
  (f : OrderForm) :
  find_order db oid = Some o -> order_staff_id o = uid -> find_user db uid = Some su ->
  user_role su <> "admin" ->
  staff_edit_order (fst (update_order_status db oid "pending")) uid oid f =
  replace_order_contents (fst (update_order_status db oid "pending")) (set_order_status "pending" o) f
    "Order updated successfully!".
Proof.
  intros Hf Hs Hu Hr.
  assert (Hu' : find_user (fst (update_order_status db oid "pending")) uid = Some su).
  { unfold update_order_status. rewrite Hf. exact Hu. }
  unfold staff_edit_order. rewrite (find_order_set_status _ _ _ _ Hf). cbn [order_staff_id status set_order_status].
  rewrite Hs, Nat.eqb_refl, Hu'. simpl negb.
  apply String.eqb_neq in Hr. rewrite Hr. reflexivity.
Qed.

Lemma update_order_status_reopens_staff_edit_witness :
  let db := fst (update_order_status sample_db1 1 "approved") in
  let o := mkOrder 1 "TX1" 1 2 10 15 "approved" (550#1) "" in
  snd (staff_edit_order db 2 1 (sample_form 10 16 [Some 1%nat])) =
    Rejected "You can only edit pending orders!" /\
  staff_edit_order (fst (update_order_status db 1 "pending")) 2 1 (sample_form 10 16 [Some 1%nat]) =
  replace_order_contents (fst (update_order_status db 1 "pending")) (set_order_status "pending" o)
    (sample_form 10 16 [Some 1%nat]) "Order updated successfully!".
Proof.
  intros db o. split; [vm_compute; reflexivity|].
  apply (update_order_status_reopens_staff_edit db 2 1 o (mkUser 2 "Sam" "staff")).
  - vm_compute. reflexivity.
  - reflexivity.
  - vm_compute. reflexivity.
  - discriminate.
Defined.

(** X4: toggle_product is an involution: toggling the same product twice
    gives back the database it started from; on a missing product it
    answers NotFound and leaves the database untouched. *)
Theorem toggle_product_involutive (db : DB) (pid : nat) :
  fst (toggle_product (fst (toggle_product db pid)) pid) = db /\
  (find_product db pid = None -> toggle_product db pid = (db, NotFound)).
Proof.
  split; [|intros Ep; unfold toggle_product; rewrite Ep; reflexivity].
  unfold toggle_product at 2. destruct (find_product db pid) as [p|] eqn:Ep; simpl fst.
  - unfold toggle_product. unfold find_product at 1. simpl products. rewrite find_map.
    erewrite find_ext_eq by (intros q; destruct (Nat.eqb (product_id q) pid); reflexivity).
    unfold find_product in Ep. simpl. rewrite Ep. simpl. rewrite map_map.
    set (flip := fun q => if Nat.eqb (product_id q) pid
                 then mkProduct (product_id q) (product_code q) (product_name q) (rental_price q)
                                (deposit_amount q) (negb (product_is_active q))
                 else q).
    assert (Hm : map (fun q => flip (flip q)) (products db) = products db).
    { rewrite <- (map_id (products db)) at 2. apply map_ext. intros q. unfold flip.
      destruct (Nat.eqb (product_id q) pid) eqn:Eq; simpl; rewrite ?Eq; [|reflexivity].
      rewrite negb_involutive. destruct q; reflexivity. }
    change (set_products (set_products db (map flip (products db)))
              (map (fun q => flip (flip q)) (products db)) = db).
    rewrite Hm. destruct db; reflexivity.
  - unfold toggle_product. rewrite Ep. reflexivity.
Qed.

(** X5: create_order never reads [is_active]: on a database where a product
    was deactivated (or re-activated) by toggle_product, the POST books,
    prices and rejects exactly as before; only the products table differs.
    The form lists active products only, but a submitted id of an inactive
    product is booked. *)
Theorem create_order_ignores_is_active (db : DB) (pid staff : nat) (tx : string) (f : OrderForm) :
  create_order (fst (toggle_product db pid)) staff tx f =
  (set_products (fst (create_order db staff tx f)) (products (fst (toggle_product db pid))),
   snd (create_order db staff tx f)).
Proof.
  pattern (fst (toggle_product db pid)) at 1.
  rewrite <- (set_products_same (fst (toggle_product db pid))).
  assert (Hp : set_products (fst (toggle_product db pid)) (products (fst (toggle_product db pid))) =
               set_products db (products (fst (toggle_product db pid)))).
  { unfold toggle_product. destruct (find_product db pid); reflexivity. }
  rewrite Hp. apply create_order_products.
  rewrite <- Hp, set_products_same. apply toggle_product_view.
Qed.

(** ** allowed_file *)

Lemma has_dot_cons (c : ascii) (s : string) :
  has_dot (String c s) = (Ascii.eqb c "." || has_dot s)%bool.
Proof. reflexivity. Qed.

Lemma rsplit_dot_no_dot (s : string) : has_dot s = false -> rsplit_dot s = [s].
Proof.
  induction s as [|c s IH]; intros H; [reflexivity|].
  rewrite has_dot_cons in H. apply orb_false_iff in H as [Hc Hs].
  simpl. rewrite (IH Hs), Hc. reflexivity.
Qed.

Lemma rsplit_dot_last (s e : string) :
  has_dot e = false -> rsplit_dot (s ++ String "." e) = [s; e].
Proof.
  intros He. induction s as [|c s IH]; simpl.
  - rewrite (rsplit_dot_no_dot e He). reflexivity.
  - rewrite IH. reflexivity.
Qed.

Lemma rsplit_dot_spec (s : string) :
  has_dot s = true -> exists a e, s = (a ++ String "." e)%string /\ has_dot e = false.
Proof.
  induction s as [|c s IH]; intros H; [discriminate|].
  rewrite has_dot_cons in H. destruct (has_dot s) eqn:Hs.
  - destruct (IH eq_refl) as (a & e & -> & He). exists (String c a), e. split; [reflexivity|exact He].
  - rewrite orb_false_r in H. apply Ascii.eqb_eq in H. subst c.
    exists EmptyString, s. split; [reflexivity|exact Hs].
Qed.

Lemma has_dot_last (s e : string) : has_dot (s ++ String "." e) = true.
Proof.
  induction s as [|c s IH]; [reflexivity|]. simpl. rewrite has_dot_cons, IH, orb_true_r. reflexivity.
Qed.

(** X6: allowed_file accepts a filename exactly when it contains a dot and
    the text after its LAST dot, lower-cased, is one of png, jpg, jpeg, gif
    or webp: the check is case-insensitive and only the final extension
    counts ("a.png.exe" is refused, "a.exe.PNG" accepted). *)
Theorem allowed_file_iff (filename : string) :
  allowed_file filename = true <->
  exists s e, filename = (s ++ String "." e)%string /\ has_dot e = false /\
              In (str_lower e) allowed_extensions.
Proof.
  split.
  - unfold allowed_file. intros H. apply andb_true_iff in H as [Hd H].
    destruct (rsplit_dot_spec _ Hd) as (s & e & -> & He).
    rewrite (rsplit_dot_last s e He) in H. simpl nth_error in H. cbv iota beta in H.
    apply existsb_exists in H as (x & Hx & Hxe). apply String.eqb_eq in Hxe. subst x.
    exists s, e. auto.
  - intros (s & e & -> & He & Hin). unfold allowed_file.
    rewrite has_dot_last, (rsplit_dot_last s e He).
    change (existsb (String.eqb (str_lower e)) allowed_extensions = true).
    apply existsb_exists. exists (str_lower e). split; [exact Hin|apply String.eqb_refl].
Qed.

(** ** generate_invoice_number *)

Lemma str_app_assoc (a b c : string) : ((a ++ b) ++ c = a ++ (b ++ c))%string.
Proof. induction a as [|x a IH]; simpl; [reflexivity|]. rewrite IH. reflexivity. Qed.

Lemma str_app_nil (a : string) : (a ++ "")%string = a.
Proof. induction a as [|x a IH]; simpl; [reflexivity|]. rewrite IH. reflexivity. Qed.

Lemma str_length_app (a b : string) : String.length (a ++ b) = (String.length a + String.length b)%nat.
Proof. induction a as [|x a IH]; simpl; [reflexivity|]. rewrite IH. reflexivity. Qed.

Lemma digits_aux_app (fuel n : nat) (acc : string) :
  digits_aux fuel n acc = (digits_aux fuel n "" ++ acc)%string.
Proof.
  revert n acc. induction fuel as [|fuel IH]; intros n acc; simpl; [reflexivity|].
  destruct (Nat.ltb n 10); [reflexivity|].
  rewrite IH, (IH _ (String _ "")), str_app_assoc. reflexivity.
Qed.

Lemma nat_of_digits_acc_app (a b : string) (acc : nat) :
  nat_of_digits_acc (a ++ b) acc = nat_of_digits_acc b (nat_of_digits_acc a acc).
Proof. revert acc. induction a as [|x a IH]; intros acc; simpl; [reflexivity|]. apply IH. Qed.

Lemma digit_value (n : nat) : (nat_of_ascii (ascii_of_nat (48 + n mod 10)) - 48 = n mod 10)%nat.
Proof.
  rewrite nat_ascii_embedding; [lia|].
  pose proof (Nat.mod_upper_bound n 10). lia.
Qed.

Lemma digits_aux_value (fuel n : nat) :
  (n < fuel)%nat -> nat_of_digits_acc (digits_aux fuel n "") O = n.
Proof.
  revert n. induction fuel as [|fuel IH]; intros n Hn; [lia|]. cbn [digits_aux].
  destruct (Nat.ltb n 10) eqn:Elt.
  - cbn [nat_of_digits_acc]. rewrite digit_value. apply Nat.ltb_lt in Elt.
    rewrite Nat.mod_small by exact Elt. lia.
  - apply Nat.ltb_ge in Elt. rewrite digits_aux_app, nat_of_digits_acc_app.
    rewrite IH by (pose proof (Nat.div_lt n 10); lia). cbn [nat_of_digits_acc].
    rewrite digit_value. pose proof (Nat.div_mod_eq n 10). lia.
Qed.

Lemma zeros_value (k acc : nat) : nat_of_digits_acc (zeros k) acc = (acc * Nat.pow 10 k)%nat.
Proof.
  revert acc. induction k as [|k IH]; intros acc; cbn [zeros nat_of_digits_acc];
    [rewrite Nat.pow_0_r; lia|].
  rewrite IH. change (nat_of_ascii "0" - 48)%nat with O. rewrite Nat.pow_succ_r'. lia.
Qed.

Lemma pad5_value (n : nat) : nat_of_digits (pad5 (string_of_nat n)) = n.
Proof.
  unfold nat_of_digits, pad5. rewrite nat_of_digits_acc_app, zeros_value, Nat.mul_0_l.
  unfold string_of_nat. apply digits_aux_value. lia.
Qed.

Lemma list_ascii_of_string_app (s1 s2 : string) :
  list_ascii_of_string (s1 ++ s2) = (list_ascii_of_string s1 ++ list_ascii_of_string s2)%list.
Proof. induction s1 as [|c s1 IH]; simpl; [reflexivity|]. rewrite IH. reflexivity. Qed.

Lemma digits_aux_digits (fuel : nat) : forall n acc,
  forallb is_digit (list_ascii_of_string acc) = true ->
  forallb is_digit (list_ascii_of_string (digits_aux fuel n acc)) = true.
Proof.
  induction fuel as [|fuel IH]; intros n acc Hacc; cbn [digits_aux]; [exact Hacc|].
  assert (Hd : forallb is_digit (list_ascii_of_string
                 (String (ascii_of_nat (48 + Nat.modulo n 10)) acc)) = true).
  { cbn [list_ascii_of_string forallb]. rewrite Hacc, andb_true_r.
    pose proof (Nat.mod_upper_bound n 10 ltac:(lia)) as Hm.
    unfold is_digit. rewrite nat_ascii_embedding by lia.
    apply andb_true_intro. split; apply Nat.leb_le; lia. }
  destruct (Nat.ltb n 10); [exact Hd|exact (IH _ _ Hd)].
Qed.

Lemma pad5_digits (n : nat) : forallb is_digit (list_ascii_of_string (pad5 (string_of_nat n))) = true.
Proof.
  unfold pad5. rewrite list_ascii_of_string_app, forallb_app. apply andb_true_intro. split.
  - generalize (5 - String.length (string_of_nat n))%nat. intros k.
    induction k as [|k IH]; [reflexivity|]. exact IH.
  - apply digits_aux_digits. reflexivity.
Qed.

Lemma pad5_length (s : string) : (5 <= String.length (pad5 s))%nat.
Proof.
  unfold pad5. rewrite str_length_app.
  assert (Hz : forall k, String.length (zeros k) = k) by (induction k; simpl; auto).
  rewrite Hz. lia.
Qed.

(** X7: generate_invoice_number round trip: the number is "INV-" followed
    by at least five digits, and reading those digits back as a decimal
    number gives the invoice count plus one. *)
Theorem generate_invoice_number_roundtrip (db : DB) :
  exists digits, generate_invoice_number db = ("INV-" ++ digits)%string /\
                 (5 <= String.length digits)%nat /\
                 forallb is_digit (list_ascii_of_string digits) = true /\
                 nat_of_digits digits = S (List.length (invoices db)).
Proof.
  eexists. split; [reflexivity|]. split; [apply pad5_length|].
  split; [apply pad5_digits|apply pad5_value].
Qed.

Lemma invoice_number_inj (m n : nat) :
  ("INV-" ++ pad5 (string_of_nat m))%string = ("INV-" ++ pad5 (string_of_nat n))%string -> m = n.
Proof.
  simpl. intros H. injection H as H.
  rewrite <- (pad5_value m), <- (pad5_value n), H. reflexivity.
Qed.

Lemma sequential_number_fresh (db : DB) :
  invoices_sequential db -> invoice_number_used db (generate_invoice_number db) = false.
Proof.
  intros Hseq. unfold invoice_number_used. apply Bool.not_true_iff_false. intros H.
  apply existsb_exists in H as (inv & Hin & Heq). apply String.eqb_eq in Heq.
  apply In_nth_error in Hin as [i Hi].
  pose proof (nth_error_Some (invoices db) i) as [Hlt _].
  assert (Hb : (i < List.length (invoices db))%nat) by (apply Hlt; rewrite Hi; discriminate).
  rewrite (Hseq i inv Hi) in Heq. unfold generate_invoice_number in Heq.
  apply invoice_number_inj in Heq. lia.
Qed.

(** X8: while the invoice table holds the numbers generate_invoice_number
    gave its rows, the next generated number is never taken, so the unique
    [invoice_number] column never fails a commit. *)
Theorem generate_invoice_number_fresh (db : DB) :
  invoices_sequential db -> invoice_number_used db (generate_invoice_number db) = false.
Proof. exact (sequential_number_fresh db). Qed.

Lemma sample_db1_sequential : invoices_sequential sample_db1.
Proof.
  intros [|i] inv H; simpl in H; [injection H as <-; reflexivity|destruct i; discriminate].
Qed.

Lemma generate_invoice_number_fresh_witness :
  invoices_sequential sample_db1 /\
  invoice_number_used sample_db1 (generate_invoice_number sample_db1) = false.
Proof.
  split.
  - intros [|i] inv H; simpl in H; [injection H as <-; reflexivity|destruct i; discriminate].
  - apply generate_invoice_number_fresh.
    intros [|i] inv H; simpl in H; [injection H as <-; reflexivity|destruct i; discriminate].
Defined.

(** ** create_order, view_invoice and the invoice table *)

Lemma find_all_false {A} (f : A -> bool) (l : list A) :
  (forall x, In x l -> f x = false) -> find f l = None.
Proof.
  intros H. induction l as [|x l IH]; simpl; [reflexivity|].
  rewrite (H x (or_introl eq_refl)). apply IH. intros y Hy. apply H. right. exact Hy.
Qed.

Lemma find_none_existsb {A} (f : A -> bool) (l : list A) :
  find f l = None -> existsb f l = false.
Proof. induction l as [|x l IH]; simpl; [reflexivity|]. destruct (f x); [discriminate|exact IH]. Qed.

(** Where create_order does not commit it leaves the database unchanged;
    where it commits, the new rows are appended to every table. *)
Lemma create_order_shape (db : DB) (staff : nat) (tx : string) (f : OrderForm) :
  (fst (create_order db staff tx f) = db /\ forall fl, snd (create_order db staff tx f) <> Done fl) \/
  exists items t1 extras total,
    first_booked db (form_product_ids f) (form_delivery_date f) (form_return_date f) = None /\
    add_items db (next_order_id db) (form_product_ids f) 0 = (items, t1) /\
    add_extras (next_order_id db) (form_extra_descriptions f) (form_extra_amounts f)
               (form_extra_remarks f) O t1 = Some (extras, total) /\
    transaction_id_used db tx = false /\
    invoice_number_used db (generate_invoice_number db) = false /\
    create_order db staff tx f =
      (mkDB (users db) (products db) (customers (fst (upsert_customer db f)))
         (orders db ++ [mkOrder (next_order_id db) tx (snd (upsert_customer db f)) staff
                          (form_delivery_date f) (form_return_date f) "pending" total (form_notes f)])
         (order_items db ++ items)
         (order_accessories db ++ add_accessories (next_order_id db) (form_accessory_names f)
                                                  (form_accessory_remarks f) O)
         (order_extra_charges db ++ extras)
         (invoices db ++ [mkInvoice (next_invoice_id db) (generate_invoice_number db) (next_order_id db)]),
       Done ["Order created successfully"]).
Proof.
  remember (create_order db staff tx f) as res eqn:Hres. unfold create_order in Hres.
  destruct (first_booked db _ _ _) as [pid|] eqn:Eb.
  { left. destruct (find_product db pid); subst res; split; try reflexivity; intros fl; discriminate. }
  pose proof (upsert_customer_frame db f) as [cs Hcs].
  destruct (upsert_customer db f) as [db1 cid] eqn:Eu. simpl fst in Hcs. subst db1.
  cbv beta iota zeta in Hres.
  rewrite (add_items_products (set_customers db cs) db) in Hres by reflexivity.
  change (next_order_id (set_customers db cs)) with (next_order_id db) in Hres.
  destruct (add_items db (next_order_id db) (form_product_ids f) 0) as [items t1] eqn:Ei.
  cbv beta iota zeta in Hres.
  destruct (add_extras _ _ _ _ _ _) as [[extras total]|] eqn:Ee;
    [|left; subst res; split; [reflexivity|intros fl; discriminate]].
  change (transaction_id_used (set_customers db cs) tx) with (transaction_id_used db tx) in Hres.
  change (generate_invoice_number (set_customers db cs)) with (generate_invoice_number db) in Hres.
  change (invoice_number_used (set_customers db cs)) with (invoice_number_used db) in Hres.
  destruct (transaction_id_used db tx) eqn:Et;
    [left; subst res; split; [reflexivity|intros fl; discriminate]|].
  destruct (invoice_number_used db (generate_invoice_number db)) eqn:En;
    [left; subst res; split; [reflexivity|intros fl; discriminate]|].
  right. exists items, t1, extras, total. repeat split; assumption.
Qed.

(** Invoice numbers of a list of invoice rows follow their positions. *)
Lemma sequential_snoc (db : DB) (k oid : nat) (l : list Invoice) :
  invoices_sequential db ->
  l = (invoices db ++ [mkInvoice k (generate_invoice_number db) oid])%list ->
  forall i inv, nth_error l i = Some inv ->
    invoice_number inv = ("INV-" ++ pad5 (string_of_nat (S i)))%string.
Proof.
  intros Hs -> i inv H.
  destruct (Nat.lt_ge_cases i (List.length (invoices db))) as [Hlt|Hge].
  - rewrite nth_error_app1 in H by exact Hlt. exact (Hs i inv H).
  - rewrite nth_error_app2 in H by exact Hge.
    destruct (i - List.length (invoices db))%nat as [|n] eqn:E.
    + simpl in H. injection H as <-. simpl. unfold generate_invoice_number.
      replace i with (List.length (invoices db)) by lia. reflexivity.
    + destruct n; discriminate.
Qed.

Lemma upsert_customer_spec (db : DB) (f : OrderForm) :
  List.length (customers (fst (upsert_customer db f))) =
    (List.length (customers db) +
     (if existsb (fun c => String.eqb (customer_phone c) (form_customer_phone f)) (customers db)
      then 0 else 1))%nat /\
  exists c, In c (customers (fst (upsert_customer db f))) /\ customer_id c = snd (upsert_customer db f) /\
            customer_phone c = form_customer_phone f.
Proof.
  unfold upsert_customer.
  destruct (find (fun c => String.eqb (customer_phone c) (form_customer_phone f)) (customers db))
    as [c|] eqn:Ef; simpl.
  - apply find_some in Ef as [Hin Hph].
    assert (Hex : existsb (fun c => String.eqb (customer_phone c) (form_customer_phone f)) (customers db) = true)
      by (apply existsb_exists; exists c; auto).
    rewrite Hex, length_map. split; [lia|].
    eexists. split; [apply in_map_iff; exists c; split; [rewrite Nat.eqb_refl; reflexivity|exact Hin]|].
    split; [reflexivity|]. apply String.eqb_eq. exact Hph.
  - rewrite (find_none_existsb _ _ Ef), length_app. split; [reflexivity|].
    eexists. split; [apply in_or_app; right; left; reflexivity|]. split; reflexivity.
Qed.

(** X9: create_order keeps the invoice table sequential: the invoice it adds
    is the next one in line, whatever the request. *)
Theorem create_order_keeps_invoices_sequential (db : DB) (staff : nat) (tx : string) (f : OrderForm) :
  invoices_sequential db -> invoices_sequential (fst (create_order db staff tx f)).
Proof.
  intros Hs. destruct (create_order_shape db staff tx f) as [[-> _]|(items & t1 & extras & total & _ & _ & _ & _ & _ & ->)];
    [exact Hs|].
  intros i inv H. exact (sequential_snoc db _ _ _ Hs eq_refl i inv H).
Qed.

Lemma create_order_keeps_invoices_sequential_witness :
  invoices_sequential sample_db1 /\
  invoices_sequential (fst (create_order sample_db1 2 "TX2" (sample_form 16 20 [Some 2%nat]))).
Proof.
  split; [exact sample_db1_sequential|].
  exact (create_order_keeps_invoices_sequential sample_db1 2 "TX2" (sample_form 16 20 [Some 2%nat])
           sample_db1_sequential).
Defined.



(** X11: after a committed create_order, view_invoice of the new order
    writes nothing and shows the invoice create_order generated, unless
    [amount_in_words] raises on the new order's total (a total below -20,
    reachable with negative extra charges), provided no older invoice row
    points at the new order's key. *)
Theorem create_order_then_view_invoice (db : DB) (staff : nat) (tx : string) (f : OrderForm)
  (fl : list string) :
  invoice_refs_ok db -> snd (create_order db staff tx f) = Done fl ->
  exists o, find_order (fst (create_order db staff tx f)) (next_order_id db) = Some o /\
    view_invoice (fst (create_order db staff tx f)) (next_order_id db) =
    (fst (create_order db staff tx f),
     match amount_in_words (total_amount o) with
     | Some _ => Some (generate_invoice_number db)
     | None => None
     end).
Proof.
  intros Hrefs Hd.
  destruct (create_order_shape db staff tx f) as [[_ Hn]|(items & t1 & extras & total & _ & _ & _ & _ & _ & Hco)];
    [exfalso; exact (Hn fl Hd)|].
  rewrite Hco. simpl fst. eexists. split.
  - unfold find_order. simpl orders. rewrite find_order_fresh by reflexivity. reflexivity.
  - unfold view_invoice, find_order, find_invoice. simpl orders. simpl invoices.
    rewrite find_order_fresh by reflexivity. cbv zeta.
    rewrite find_app_none_r.
    + simpl. rewrite Nat.eqb_refl. destruct (amount_in_words total); reflexivity.
    + apply find_all_false. intros i Hi. apply Nat.eqb_neq. specialize (Hrefs i Hi). lia.
Qed.

Lemma create_order_then_view_invoice_witness :
  invoice_refs_ok sample_db0 /\
  snd (create_order sample_db0 2 "TX1" (sample_form 10 15 [Some 1%nat])) = Done ["Order created successfully"] /\
  snd (create_order sample_db0 2 "TX1" sample_discount_form) = Done ["Order created successfully"] /\
  snd (view_invoice (fst (create_order sample_db0 2 "TX1" (sample_form 10 15 [Some 1%nat])))
                    (next_order_id sample_db0)) = Some "INV-00001" /\
  snd (view_invoice (fst (create_order sample_db0 2 "TX1" sample_discount_form))
                    (next_order_id sample_db0)) = None.
Proof.
  assert (Hr : invoice_refs_ok sample_db0) by (intros i []).
  split; [exact Hr|]. split; [vm_compute; reflexivity|]. split; [vm_compute; reflexivity|]. split.
  - destruct (create_order_then_view_invoice sample_db0 2 "TX1" (sample_form 10 15 [Some 1%nat])
                ["Order created successfully"] Hr eq_refl) as (o & Hf & Hv).
    rewrite Hv. vm_compute in Hf. injection Hf as <-. vm_compute. reflexivity.
  - destruct (create_order_then_view_invoice sample_db0 2 "TX1" sample_discount_form
                ["Order created successfully"] Hr eq_refl) as (o & Hf & Hv).
    rewrite Hv. vm_compute in Hf. injection Hf as <-. vm_compute. reflexivity.
Defined.

(** X12: create_order finds the customer by phone number: a known phone
    reuses that customer row (its details overwritten) and adds none, a new
    phone adds exactly one row; either way the new order points at a
    customer with the submitted phone. *)
Theorem create_order_customer_by_phone (db : DB) (staff : nat) (tx : string) (f : OrderForm)
  (fl : list string) :
  snd (create_order db staff tx f) = Done fl ->
  List.length (customers (fst (create_order db staff tx f))) =
    (List.length (customers db) +
     (if existsb (fun c => String.eqb (customer_phone c) (form_customer_phone f)) (customers db)
      then 0 else 1))%nat /\
  exists o c, find_order (fst (create_order db staff tx f)) (next_order_id db) = Some o /\
              In c (customers (fst (create_order db staff tx f))) /\
              customer_id c = order_customer_id o /\ customer_phone c = form_customer_phone f.
Proof.
  intros Hd.
  destruct (create_order_shape db staff tx f) as [[_ Hn]|(items & t1 & extras & total & _ & _ & _ & _ & _ & Hco)];
    [exfalso; exact (Hn fl Hd)|].
  rewrite Hco. simpl fst. destruct (upsert_customer_spec db f) as [Hlen (c & Hin & Hid & Hph)].
  split; [exact Hlen|].
  eexists. exists c. split; [unfold find_order; simpl orders; apply find_order_fresh; reflexivity|].
  split; [exact Hin|]. split; [exact Hid|exact Hph].
Qed.

Lemma create_order_customer_by_phone_witness :
  snd (create_order sample_db1 2 "TX2" (sample_form 16 20 [Some 2%nat])) = Done ["Order created successfully"] /\
  List.length (customers (fst (create_order sample_db1 2 "TX2" (sample_form 16 20 [Some 2%nat])))) = 1%nat.
Proof.
  split; [vm_compute; reflexivity|].
  rewrite (proj1 (create_order_customer_by_phone sample_db1 2 "TX2" (sample_form 16 20 [Some 2%nat])
                    ["Order created successfully"] eq_refl)).
  vm_compute. reflexivity.
Defined.

(** ** Form loops *)

(** X13: the accessories loop records one row per non-empty name, in order,
    each on the given order, with the remark at the same position or ""
    when the remarks list is shorter. *)
Theorem add_accessories_spec (oid : nat) (names remarks : list string) (i : nat) :
  List.length (add_accessories oid names remarks i) =
    List.length (filter (fun n => negb (String.eqb n "")) names) /\
  (forall a, In a (add_accessories oid names remarks i) ->
     accessory_order_id a = oid /\ accessory_name a <> "") /\
  (forall k name, nth_error names k = Some name -> name <> "" ->
     In (mkOrderAccessory oid name (nth (i + k) remarks "")) (add_accessories oid names remarks i)) /\
  add_accessories oid names remarks i =
    map (fun kn => mkOrderAccessory oid (snd kn) (nth (fst kn) remarks ""))
        (filter (fun kn => negb (String.eqb (snd kn) "")) (combine (seq i (List.length names)) names)).
Proof.
  assert (Hord : forall i, add_accessories oid names remarks i =
    map (fun kn => mkOrderAccessory oid (snd kn) (nth (fst kn) remarks ""))
        (filter (fun kn => negb (String.eqb (snd kn) "")) (combine (seq i (List.length names)) names))).
  { induction names as [|n names IH]; intros j; [reflexivity|].
    cbn [add_accessories List.length seq combine filter snd].
    rewrite (IH (S j)). destruct (String.eqb n ""); reflexivity. }
  cut (List.length (add_accessories oid names remarks i) =
         List.length (filter (fun n => negb (String.eqb n "")) names) /\
       (forall a, In a (add_accessories oid names remarks i) ->
          accessory_order_id a = oid /\ accessory_name a <> "") /\
       (forall k name, nth_error names k = Some name -> name <> "" ->
          In (mkOrderAccessory oid name (nth (i + k) remarks "")) (add_accessories oid names remarks i))).
  { intros (H1 & H2 & H3). split; [exact H1|]. split; [exact H2|]. split; [exact H3|apply Hord]. }
  clear Hord.
  revert i. induction names as [|n names IH]; intros i.
  - split; [reflexivity|]. split; [intros a []|]. intros [|k] name H; discriminate.
  - destruct (IH (S i)) as (Hl & Ha & Hk). simpl.
    destruct (String.eqb n "") eqn:En; simpl.
    + split; [exact Hl|]. split; [exact Ha|].
      intros [|k] name H Hne; simpl in H.
      * injection H as <-. apply String.eqb_eq in En. contradiction.
      * replace (i + S k)%nat with (S i + k)%nat by lia. exact (Hk k name H Hne).
    + split; [rewrite Hl; reflexivity|]. split.
      * intros a [<-|Hin]; [|exact (Ha a Hin)]. simpl. split; [reflexivity|].
        apply String.eqb_neq. exact En.
      * intros [|k] name H Hne; simpl in H.
        -- injection H as <-. left. rewrite Nat.add_0_r. reflexivity.
        -- right. replace (i + S k)%nat with (S i + k)%nat by lia. exact (Hk k name H Hne).
Qed.

Lemma add_extras_missing_amount (oid : nat) (descs : list string) (amounts : list (option Q))
  (remarks : list string) (i k : nat) (t : Q) (d : string) :
  nth_error descs k = Some d -> d <> "" -> (List.length amounts <= i + k)%nat ->
  add_extras oid descs amounts remarks i t = None.
Proof.
  revert i k t. induction descs as [|x descs IH]; intros i k t Hk Hd Hlen; [destruct k; discriminate|].
  simpl. destruct k as [|k].
  - simpl in Hk. injection Hk as <-. apply String.eqb_neq in Hd. rewrite Hd.
    rewrite (proj2 (nth_error_None amounts i)) by lia. reflexivity.
  - simpl in Hk. assert (Hl : (List.length amounts <= S i + k)%nat) by lia.
    destruct (String.eqb x ""); [exact (IH _ _ _ Hk Hd Hl)|].
    destruct (nth_error amounts i) as [[a|]|]; [|exact (IH _ _ _ Hk Hd Hl)|reflexivity].
    rewrite (IH _ _ _ Hk Hd Hl). reflexivity.
Qed.

Lemma add_extras_complete (oid : nat) (descs : list string) (amounts : list (option Q))
  (remarks : list string) (i : nat) (t : Q) :
  (forall k d, nth_error descs k = Some d -> d <> "" -> (i + k < List.length amounts)%nat) ->
  add_extras oid descs amounts remarks i t <> None.
Proof.
  revert i t. induction descs as [|x descs IH]; intros i t H; simpl; [discriminate|].
  assert (H' : forall k d, nth_error descs k = Some d -> d <> "" -> (S i + k < List.length amounts)%nat).
  { intros k d Hk Hd. specialize (H (S k) d Hk Hd). lia. }
  destruct (String.eqb x "") eqn:Ex; [exact (IH _ _ H')|].
  destruct (nth_error amounts i) as [[a|]|] eqn:Ea; [| exact (IH _ _ H') |].
  - destruct (add_extras oid descs amounts remarks (S i) (t + a)) as [[exs t']|] eqn:Er; [discriminate|].
    intros _. exact (IH _ _ H' Er).
  - exfalso. apply nth_error_None in Ea. apply String.eqb_neq in Ex.
    specialize (H O x eq_refl Ex). lia.
Qed.

(** X14: an extra-charge description with no amount at its index
    ([extra_amounts[i]] raises [IndexError]) makes create_order (past the
    booking check) and edit_order fail with nothing written. *)
Theorem extra_without_amount_crashes (db : DB) (staff : nat) (tx : string) (f : OrderForm)
  (k : nat) (d : string) :
  nth_error (form_extra_descriptions f) k = Some d -> d <> "" ->
  (List.length (form_extra_amounts f) <= k)%nat ->
  (first_booked db (form_product_ids f) (form_delivery_date f) (form_return_date f) = None ->
   create_order db staff tx f = (db, Crash)) /\
  (forall oid, edit_order db oid f = (db, NotFound) \/ edit_order db oid f = (db, Crash)).
Proof.
  intros Hk Hd Hlen.
  assert (Hx : forall oid t, add_extras oid (form_extra_descriptions f) (form_extra_amounts f)
                                        (form_extra_remarks f) O t = None)
    by (intros oid t; apply (add_extras_missing_amount _ _ _ _ O k t d Hk Hd); lia).
  split.
  - intros Hb. unfold create_order. rewrite Hb.
    destruct (upsert_customer db f) as [db1 cid].
    destruct (add_items db1 _ _ _) as [items t1]. rewrite Hx. reflexivity.
  - intros oid. unfold edit_order. destruct (find_order db oid) as [o|]; [right|left; reflexivity].
    unfold replace_order_contents. destruct (update_order_customer db _ f) as [db1|]; [|reflexivity].
    destruct (add_items _ _ _ _) as [items t1]. rewrite Hx. reflexivity.
Qed.

Definition sample_form_unpriced : OrderForm :=
  mkOrderForm "Asha" "999" "" "" "" 10 15 "" [Some 1%nat] [] [] ["Fitting"; "Ironing"]
              [Some (50#1)] [].

Lemma extra_without_amount_crashes_witness :
  create_order sample_db0 2 "TX1" sample_form_unpriced = (sample_db0, Crash) /\
  edit_order sample_db1 1 sample_form_unpriced = (sample_db1, Crash).
Proof.
  split.
  - apply (proj1 (extra_without_amount_crashes sample_db0 2 "TX1" sample_form_unpriced 1 "Ironing"
                    eq_refl ltac:(discriminate) ltac:(simpl; lia))).
    reflexivity.
  - destruct (proj2 (extra_without_amount_crashes sample_db1 2 "TX1" sample_form_unpriced 1 "Ironing"
                       eq_refl ltac:(discriminate) ltac:(simpl; lia)) 1%nat) as [H|H];
      [vm_compute in H; discriminate|exact H].
Defined.

(** ** edit_order *)

(** X15: edit_order (admin) runs no availability and no status check: on
    an existing order whose customer row exists, with an amount for every
    non-empty extra-charge description, it commits whatever products and
    dates are submitted, even ones that double-book a product. *)
Theorem edit_order_commits_unchecked (db : DB) (oid : nat) (f : OrderForm) (o : Order) (c : Customer) :
  find_order db oid = Some o -> In c (customers db) -> customer_id c = order_customer_id o ->
  (forall k d, nth_error (form_extra_descriptions f) k = Some d -> d <> "" ->
     (k < List.length (form_extra_amounts f))%nat) ->
  exists fl, snd (edit_order db oid f) = Done fl.
Proof.
  intros Hf Hc Hcid Hx. unfold edit_order. rewrite Hf. unfold replace_order_contents, update_order_customer.
  destruct (find (fun c' => Nat.eqb (customer_id c') (order_customer_id o)) (customers db)) eqn:Ec.
  2: { exfalso. pose proof (find_none _ _ Ec c Hc) as H. simpl in H. rewrite Hcid, Nat.eqb_refl in H.
       discriminate. }
  destruct (add_items _ _ _ _) as [items t1].
  destruct (add_extras _ _ _ _ _ _) as [[extras total]|] eqn:Ee; [eexists; reflexivity|].
  exfalso. exact (add_extras_complete _ _ _ _ O t1 Hx Ee).
Qed.

Lemma edit_order_commits_unchecked_witness :
  first_booked sample_db2 [Some 1%nat] 10 15 = Some 1%nat /\
  snd (edit_order sample_db2 2 (sample_form 10 15 [Some 1%nat])) = Done ["Order updated successfully"].
Proof.
  split; [vm_compute; reflexivity|].
  destruct (edit_order_commits_unchecked sample_db2 2 (sample_form 10 15 [Some 1%nat])
              (mkOrder 2 "TX2" 1 2 16 20 "pending" (350#1) "") (mkCustomer 1 "Asha" "999" "" "" ""))
    as [fl Hfl].
  - vm_compute. reflexivity.
  - vm_compute. left. reflexivity.
  - reflexivity.
  - intros [|[|k]] d Hk Hd; simpl in Hk; [simpl; lia|discriminate|destruct k; discriminate].
  - vm_compute. reflexivity.
Defined.

Lemma filter_filter_sub {A} (f g : A -> bool) (l : list A) :
  (forall x, f x = true -> g x = true) -> filter f (filter g l) = filter f l.
Proof.
  intros H. induction l as [|x l IH]; simpl; [reflexivity|].
  destruct (g x) eqn:Eg; simpl.
  - destruct (f x); rewrite IH; reflexivity.
  - destruct (f x) eqn:Ef; [rewrite (H x Ef) in Eg; discriminate|exact IH].
Qed.

Lemma replace_order_contents_frame (db : DB) (o : Order) (f : OrderForm) (msg : string) (oid' : nat) :
  oid' <> order_id o ->
  find_order (fst (replace_order_contents db o f msg)) oid' = find_order db oid' /\
  items_of (fst (replace_order_contents db o f msg)) oid' = items_of db oid' /\
  extras_of (fst (replace_order_contents db o f msg)) oid' = extras_of db oid'.
Proof.
  intros Hne. unfold replace_order_contents.
  destruct (update_order_customer db (order_customer_id o) f) as [db1|] eqn:Eu; [|auto].
  apply update_order_customer_frame in Eu as [cs ->].
  destruct (add_items _ _ _ _) as [items t1] eqn:Ei.
  destruct (add_extras _ _ _ _ _ _) as [[extras total]|] eqn:Ee; [|auto].
  destruct (add_items_spec _ _ _ _ _ _ Ei) as [_ Hits].
  destruct (add_extras_spec _ _ _ _ _ _ _ _ Ee) as [_ Hexs].
  assert (Hne' : Nat.eqb oid' (order_id o) = false) by (apply Nat.eqb_neq; exact Hne).
  split; [|split].
  - simpl fst.
    transitivity (find_order
      (update_order (update_order (set_customers db cs) (order_id o)
         (set_order_details (form_delivery_date f) (form_return_date f) (form_notes f)))
         (order_id o) (set_order_total total)) oid'); [reflexivity|].
    rewrite !find_order_update_other by reflexivity.
    change (find_order (set_customers db cs) oid') with (find_order db oid').
    destruct (find_order db oid') as [o'|] eqn:E2; [|reflexivity].
    apply find_order_in in E2 as [_ Hid]. simpl. rewrite Hid, Hne'. simpl. rewrite Hid, Hne'.
    reflexivity.
  - unfold items_of. simpl. rewrite filter_app.
    rewrite (filter_all_false _ items) by (intros it Hin; rewrite (proj1 (Hits it Hin)), Nat.eqb_sym; exact Hne').
    rewrite app_nil_r. apply filter_filter_sub. intros it Hit. apply Nat.eqb_eq in Hit.
    rewrite Hit, Hne'. reflexivity.
  - unfold extras_of. simpl. rewrite filter_app.
    rewrite (filter_all_false _ extras) by (intros e Hin; rewrite (Hexs e Hin), Nat.eqb_sym; exact Hne').
    rewrite app_nil_r. apply filter_filter_sub. intros e He. apply Nat.eqb_eq in He.
    rewrite He, Hne'. reflexivity.
Qed.

(** X16: edit_order and staff_edit_order of order [oid] leave every other
    order untouched: its row, its line items and its extra charges. *)
Theorem edit_leaves_other_orders (db : DB) (uid oid oid' : nat) (f : OrderForm) :
  oid' <> oid ->
  (find_order (fst (edit_order db oid f)) oid' = find_order db oid' /\
   items_of (fst (edit_order db oid f)) oid' = items_of db oid' /\
   extras_of (fst (edit_order db oid f)) oid' = extras_of db oid') /\
  (find_order (fst (staff_edit_order db uid oid f)) oid' = find_order db oid' /\
   items_of (fst (staff_edit_order db uid oid f)) oid' = items_of db oid' /\
   extras_of (fst (staff_edit_order db uid oid f)) oid' = extras_of db oid').
Proof.
  intros Hne. unfold edit_order, staff_edit_order.
  destruct (find_order db oid) as [o|] eqn:Ef; [|auto].
  apply find_order_in in Ef as [_ Hid]. rewrite <- Hid in Hne.
  split; [apply replace_order_contents_frame; exact Hne|].
  destruct (negb _); [auto|]. destruct (find_user _ _) as [su|]; [|auto].
  destruct (String.eqb _ _); [auto|]. destruct (negb _); [auto|].
  apply replace_order_contents_frame. exact Hne.
Qed.

Lemma edit_leaves_other_orders_witness :
  (2 <> 1)%nat /\
  items_of (fst (edit_order sample_db2 1 (sample_form 10 12 [Some 3%nat]))) 2 = items_of sample_db2 2.
Proof.
  split; [discriminate|].
  exact (proj1 (proj2 (proj1 (edit_leaves_other_orders sample_db2 2 1 2 (sample_form 10 12 [Some 3%nat])
                                ltac:(discriminate))))).
Defined.

(** ** Failed requests and permission gates *)

Lemma replace_order_contents_outcome (db : DB) (o : Order) (f : OrderForm) (msg : string) :
  fst (replace_order_contents db o f msg) = db \/
  exists fl, snd (replace_order_contents db o f msg) = Done fl.
Proof.
  unfold replace_order_contents. destruct (update_order_customer _ _ _); [|left; reflexivity].
  destruct (add_items _ _ _ _). destruct (add_extras _ _ _ _ _ _) as [[? ?]|];
    [right; eexists; reflexivity|left; reflexivity].
Qed.

Lemma staff_edit_order_outcome (db : DB) (uid oid : nat) (f : OrderForm) :
  fst (staff_edit_order db uid oid f) = db \/ exists fl, snd (staff_edit_order db uid oid f) = Done fl.
Proof.
  unfold staff_edit_order. destruct (find_order db oid) as [o|]; [|left; reflexivity].
  destruct (negb _); [left; reflexivity|]. destruct (find_user _ _); [|left; reflexivity].
  destruct (String.eqb _ _); [left; reflexivity|]. destruct (negb _); [left; reflexivity|].
  apply replace_order_contents_outcome.
Qed.

Lemma add_products_to_order_outcome (db : DB) (u : User) (oid : nat) (pids : list (option nat)) :
  fst (add_products_to_order db u oid pids) = db \/
  exists fl, snd (add_products_to_order db u oid pids) = Done fl.
Proof.
  unfold add_products_to_order. destruct (find_order db oid) as [o|]; [|left; reflexivity].
  destruct (String.eqb (user_role u) "staff").
  - destruct (negb _); [left; reflexivity|]. destruct (find_user _ _) as [su|]; [|left; reflexivity].
    destruct (String.eqb (user_role su) "admin"); [left; reflexivity|].
    destruct (negb _); [left; reflexivity|].
    destruct (add_products_loop _ _ _ _) as [[db' fl]|]; [right; eexists; reflexivity|left; reflexivity].
  - destruct (negb _); [left; reflexivity|].
    destruct (add_products_loop _ _ _ _) as [[db' fl]|]; [right; eexists; reflexivity|left; reflexivity].
Qed.

(** X17: every order mutation (create_order, edit_order, staff_edit_order,
    add_products_to_order) that does not answer with a committed [Done]
    leaves the whole database as it was: rejections, 404s and crashes write
    nothing. *)
Theorem mutation_failure_rolls_back (db : DB) (m : Mutation) :
  (forall fl, snd (run_mutation db m) <> Done fl) -> fst (run_mutation db m) = db.
Proof.
  intros H. destruct m as [staff tx f|oid f|uid oid f|u oid pids]; simpl in *.
  - destruct (create_order_shape db staff tx f) as [[E _]|(items & t1 & extras & total & _ & _ & _ & _ & _ & Hco)];
      [exact E|]. exfalso. apply (H ["Order created successfully"]). rewrite Hco. reflexivity.
  - unfold edit_order in *. destruct (find_order db oid) as [o|]; [|reflexivity].
    destruct (replace_order_contents_outcome db o f "Order updated successfully") as [E|[fl E]];
      [exact E|exfalso; exact (H fl E)].
  - destruct (staff_edit_order_outcome db uid oid f) as [E|[fl E]]; [exact E|exfalso; exact (H fl E)].
  - destruct (add_products_to_order_outcome db u oid pids) as [E|[fl E]]; [exact E|exfalso; exact (H fl E)].
Qed.

Lemma mutation_failure_rolls_back_witness :
  snd (run_mutation sample_db1 (MCreate 2 "TX2" (sample_form 12 14 [Some 3%nat; Some 1%nat]))) =
    Rejected "Product P001 is already booked for these dates!" /\
  fst (run_mutation sample_db1 (MCreate 2 "TX2" (sample_form 12 14 [Some 3%nat; Some 1%nat]))) = sample_db1.
Proof.
  split; [vm_compute; reflexivity|].
  apply mutation_failure_rolls_back. intros fl. vm_compute. discriminate.
Defined.

(** X18: staff_edit_order commits only for the staff member who created
    the order, only while it is "pending", and never for an order created
    by an admin. *)
Theorem staff_edit_order_gate (db : DB) (uid oid : nat) (f : OrderForm) (fl : list string) :
  snd (staff_edit_order db uid oid f) = Done fl ->
  exists o su, find_order db oid = Some o /\ order_staff_id o = uid /\ status o = "pending" /\
               find_user db uid = Some su /\ user_role su <> "admin".
Proof.
  unfold staff_edit_order. destruct (find_order db oid) as [o|]; [|discriminate].
  destruct (Nat.eqb (order_staff_id o) uid) eqn:E1; simpl negb; [|discriminate].
  apply Nat.eqb_eq in E1. rewrite E1.
  destruct (find_user db uid) as [su|]; [|discriminate].
  destruct (String.eqb (user_role su) "admin") eqn:E2; [discriminate|].
  destruct (String.eqb (status o) "pending") eqn:E3; simpl negb; [|discriminate].
  intros _. exists o, su. apply String.eqb_eq in E3. apply String.eqb_neq in E2. auto.
Qed.

Lemma staff_edit_order_gate_witness :
  snd (staff_edit_order sample_db1 2 1 (sample_form 10 16 [Some 1%nat])) =
    Done ["Order updated successfully!"] /\
  exists o su, find_order sample_db1 1 = Some o /\ order_staff_id o = 2%nat /\ status o = "pending" /\
               find_user sample_db1 2 = Some su /\ user_role su <> "admin".
Proof.
  split; [vm_compute; reflexivity|].
  exact (staff_edit_order_gate sample_db1 2 1 (sample_form 10 16 [Some 1%nat])
           ["Order updated successfully!"] eq_refl).
Defined.

(** X19: add_products_to_order commits only on a "pending" order and, for
    a staff user, only on an order that user created and whose creator is
    not an admin. *)
Theorem add_products_to_order_gate (db : DB) (u : User) (oid : nat) (pids : list (option nat))
  (fl : list string) :
  snd (add_products_to_order db u oid pids) = Done fl ->
  exists o, find_order db oid = Some o /\ status o = "pending" /\
    (user_role u = "staff" ->
     order_staff_id o = user_id u /\
     exists su, find_user db (user_id u) = Some su /\ user_role su <> "admin").
Proof.
  unfold add_products_to_order. destruct (find_order db oid) as [o|]; [|discriminate].
  destruct (String.eqb (user_role u) "staff") eqn:Es.
  - destruct (Nat.eqb (order_staff_id o) (user_id u)) eqn:E1; simpl negb; [|discriminate].
    apply Nat.eqb_eq in E1. rewrite E1.
    destruct (find_user db (user_id u)) as [su|]; [|discriminate].
    destruct (String.eqb (user_role su) "admin") eqn:E2; [discriminate|].
    destruct (String.eqb (status o) "pending") eqn:E3; simpl negb; [|discriminate].
    intros _. exists o. apply String.eqb_eq in E3. apply String.eqb_neq in E2.
    split; [reflexivity|]. split; [exact E3|]. intros _. split; [exact E1|]. exists su. auto.
  - destruct (String.eqb (status o) "pending") eqn:E3; simpl negb; [|discriminate].
    intros _. exists o. apply String.eqb_eq in E3. split; [reflexivity|]. split; [exact E3|].
    intros Hr. rewrite Hr in Es. discriminate.
Qed.

Lemma add_products_to_order_gate_witness :
  snd (add_products_to_order sample_db1 (mkUser 2 "Sam" "staff") 1 [Some 3%nat]) =
    Done ["Products added successfully"] /\
  exists o, find_order sample_db1 1 = Some o /\ status o = "pending" /\
    (user_role (mkUser 2 "Sam" "staff") = "staff" ->
     order_staff_id o = 2%nat /\
     exists su, find_user sample_db1 2 = Some su /\ user_role su <> "admin").
Proof.
  split; [vm_compute; reflexivity|].
  exact (add_products_to_order_gate sample_db1 (mkUser 2 "Sam" "staff") 1 [Some 3%nat]
           ["Products added successfully"] eq_refl).
Defined.

(** X20: for a user who is not staff (an admin), add_products_to_order on
    any order that is not "pending" is refused with "Cannot modify approved
    orders" and writes nothing, also when the order is "completed" or
    "cancelled" rather than approved. *)
Theorem add_products_rejects_non_pending (db : DB) (u : User) (oid : nat) (pids : list (option nat))
  (o : Order) :
  user_role u <> "staff" -> find_order db oid = Some o -> status o <> "pending" ->
  add_products_to_order db u oid pids = (db, Rejected "Cannot modify approved orders").
Proof.
  intros Hu Hf Hs. unfold add_products_to_order. rewrite Hf.
  apply String.eqb_neq in Hu, Hs. rewrite Hu, Hs. reflexivity.
Qed.

Lemma add_products_rejects_non_pending_witness :
  add_products_to_order (fst (update_order_status sample_db1 1 "completed")) (mkUser 1 "Admin" "admin") 1
    [Some 3%nat] =
  (fst (update_order_status sample_db1 1 "completed"), Rejected "Cannot modify approved orders").
Proof.
  apply (add_products_rejects_non_pending _ _ _ _ (mkOrder 1 "TX1" 1 2 10 15 "completed" (550#1) "")).
  - discriminate.
  - vm_compute. reflexivity.
  - discriminate.
Defined.

(** ** amount_in_words *)

(** X21: every non-zero amount strictly between -1 and 1 (such as 0.25 or
    -0.5) is rendered " Rupees Only", with a leading space and no number
    word: [int] truncates it to 0 after the zero test. *)
Theorem amount_in_words_fraction (q : Q) :
  ~ (q == 0)%Q -> (-1 < q)%Q -> (q < 1)%Q -> amount_in_words q = Some " Rupees Only".
Proof.
  intros Hz Hlo Hhi. unfold amount_in_words.
  destruct (Qeq_bool q 0) eqn:E; [apply Qeq_bool_eq in E; contradiction|].
  assert (Hq : py_int q = 0).
  { unfold py_int. apply Z.quot_small_iff; [lia|].
    unfold Qlt in Hlo, Hhi. simpl in Hlo, Hhi. destruct q as [n d]. simpl in *. lia. }
  rewrite Hq. reflexivity.
Qed.

Lemma amount_in_words_fraction_witness :
  amount_in_words (-1#2) = Some " Rupees Only" /\ amount_in_words (3#4) = Some " Rupees Only".
Proof.
  split.
  - apply amount_in_words_fraction; [discriminate|reflexivity|reflexivity].
  - apply amount_in_words_fraction; [discriminate|reflexivity|reflexivity].
Defined.

Lemma cat_some (a b : option string) : a <> None -> b <> None -> cat a b <> None.
Proof. destruct a, b; simpl; congruence. Qed.

Lemma convert_less_than_thousand_some (n : Z) :
  (0 <= n < 1000)%Z -> convert_less_than_thousand n <> None.
Proof.
  intros Hn.
  assert (Hall : forallb (fun k => match convert_less_than_thousand (Z.of_nat k) with
                                   | Some _ => true | None => false end) (seq 0 1000) = true)
    by (vm_compute; reflexivity).
  rewrite forallb_forall in Hall.
  assert (Hin : In (Z.to_nat n) (seq 0 1000)) by (apply in_seq; lia).
  specialize (Hall _ Hin). rewrite Z2Nat.id in Hall by lia.
  destruct (convert_less_than_thousand n); [discriminate|discriminate Hall].
Qed.

Lemma convert_f_some (fuel : nat) : forall n, (0 <= n)%Z -> convert_f fuel n <> None.
Proof.
  induction fuel as [|fuel IH]; intros n Hn; cbn [convert_f]; [discriminate|].
  destruct (Z.ltb_spec n 1000); [apply convert_less_than_thousand_some; lia|].
  destruct (Z.ltb_spec n 100000); [|destruct (Z.ltb_spec n 10000000)].
  - apply cat_some; [apply cat_some; [|discriminate]|].
    + apply convert_less_than_thousand_some. Z.div_mod_to_equations. lia.
    + destruct (negb _); [|discriminate]. apply cat_some; [discriminate|].
      apply convert_less_than_thousand_some. Z.div_mod_to_equations. lia.
  - apply cat_some; [apply cat_some; [|discriminate]|].
    + apply convert_less_than_thousand_some. Z.div_mod_to_equations. lia.
    + destruct (negb _); [|discriminate]. apply cat_some; [discriminate|].
      apply IH. Z.div_mod_to_equations. lia.
  - apply cat_some; [apply cat_some; [|discriminate]|].
    + apply IH. Z.div_mod_to_equations. lia.
    + destruct (negb _); [|discriminate]. apply cat_some; [discriminate|].
      apply IH. Z.div_mod_to_equations. lia.
Qed.

Lemma convert_neg (n : Z) : (n < 0)%Z -> convert n = idx ones n.
Proof.
  intros Hn. unfold convert. rewrite (Z.log2_nonpos n) by lia. cbn [Z.to_nat convert_f].
  destruct (Z.ltb_spec n 1000); [|lia].
  unfold convert_less_than_thousand. cbn [convert_less_than_thousand_f].
  destruct (Z.eqb_spec n 0); [lia|]. destruct (Z.ltb_spec n 20); [reflexivity|lia].
Qed.

Lemma py_int_zero (q : Q) : Qeq_bool q 0 = true -> py_int q = 0%Z.
Proof.
  intros H. apply Qeq_bool_eq in H. unfold Qeq in H. simpl in H. rewrite Z.mul_1_r in H.
  unfold py_int. rewrite H. reflexivity.
Qed.

(** X25: amount_in_words raises [IndexError] exactly when the amount
    truncates to -21 or below ([ones[n]] with [n < -20]); an amount that
    truncates to [n] in [-20, -1] is spelt with [ones[n + 20]], counted
    from the end of the list (-5 gives "Fifteen Rupees Only"). *)
Theorem amount_in_words_index_error (q : Q) :
  (amount_in_words q = None <-> (py_int q < -20)%Z) /\
  ((-20 <= py_int q < 0)%Z ->
   amount_in_words q = cat (idx ones (py_int q + 20)) (Some " Rupees Only")).
Proof.
  unfold amount_in_words.
  destruct (Qeq_bool q 0) eqn:E.
  { rewrite (py_int_zero q E). split; [split; [discriminate|lia]|lia]. }
  destruct (Z.ltb_spec (py_int q) 0) as [Hn|Hn].
  - rewrite (convert_neg _ Hn).
    assert (Hi : idx ones (py_int q) =
                 if Z.ltb (py_int q + 20) 0 then None else nth_error ones (Z.to_nat (py_int q + 20))).
    { unfold idx. replace (Z.ltb (py_int q) 0) with true by (symmetry; apply Z.ltb_lt; lia).
      reflexivity. }
    rewrite Hi. destruct (Z.ltb_spec (py_int q + 20) 0).
    + split; [split; [intros _; lia|reflexivity]|lia].
    + assert (Hs : nth_error ones (Z.to_nat (py_int q + 20)) <> None)
        by (apply nth_error_Some; simpl; lia).
      split.
      * split; [intros Hx; exfalso; exact (cat_some _ (Some " Rupees Only") Hs ltac:(discriminate) Hx)|lia].
      * intros _. unfold idx. replace (Z.ltb (py_int q + 20) 0) with false
          by (symmetry; apply Z.ltb_ge; lia). reflexivity.
  - pose proof (convert_f_some (S (S (Z.to_nat (Z.log2 (py_int q))))) (py_int q) Hn) as Hc.
    split; [|lia]. split; [|lia].
    intros Hx. exfalso. exact (cat_some _ (Some " Rupees Only") Hc ltac:(discriminate) Hx).
Qed.

Lemma amount_in_words_index_error_witness :
  amount_in_words (-100#1) = None /\ amount_in_words (-5#1) = Some "Fifteen Rupees Only".
Proof.
  split.
  - apply (proj2 (proj1 (amount_in_words_index_error (-100#1)))). reflexivity.
  - rewrite (proj2 (amount_in_words_index_error (-5#1))) by (vm_compute; split; [intros Hx; discriminate|reflexivity]).
    vm_compute. reflexivity.
Defined.

(** ** The products table: ids and unique codes *)

Lemma NoDup_snoc {A} (l : list A) (x : A) : NoDup l -> ~ In x l -> NoDup (l ++ [x]).
Proof.
  induction l as [|y l IH]; intros Hn Hx; simpl; [constructor; [intros []|constructor]|].
  inversion Hn as [|? ? Hy Hn']; subst. constructor.
  - intros Hin. apply in_app_or in Hin as [H|[H|[]]]; [contradiction|subst; apply Hx; left; reflexivity].
  - apply IH; [exact Hn'|]. intros H. apply Hx. right. exact H.
Qed.

Lemma insert_product_ok (db : DB) (code name : string) (rp dp : Q) :
  products_ok db -> product_code_used db code = false ->
  products_ok (insert_product db code name rp dp).
Proof.
  intros [Hid Hc] Hu. unfold products_ok, insert_product. simpl. rewrite !map_app. simpl. split.
  - apply NoDup_snoc; [exact Hid|]. intros Hin. apply max_key_ge in Hin. unfold next_product_id in Hin. lia.
  - apply NoDup_snoc; [exact Hc|]. intros Hin. apply in_map_iff in Hin as (p & Hp & Hin).
    assert (Ht : product_code_used db code = true)
      by (apply existsb_exists; exists p; split; [exact Hin|apply String.eqb_eq; exact Hp]).
    congruence.
Qed.

(** X22: add_product keeps product ids and product codes unique: a code
    already in the table is refused (nothing written), a new one is added
    under a fresh id. *)
Theorem add_product_keeps_products_ok (py_float : string -> option Q) (db : DB)
  (code name rprice deposit : string) :
  products_ok db ->
  products_ok (fst (add_product py_float db code name rprice deposit)) /\
  (product_code_used db code = true -> fst (add_product py_float db code name rprice deposit) = db).
Proof.
  intros Hok. unfold add_product.
  destruct (py_float rprice) as [rp|]; [|split; [exact Hok|reflexivity]].
  destruct (py_float deposit) as [dp|]; [|split; [exact Hok|reflexivity]].
  destruct (product_code_used db code) eqn:Eu; [split; [exact Hok|reflexivity]|].
  split; [apply insert_product_ok; assumption|discriminate].
Qed.

Lemma sample_db0_products_ok : products_ok sample_db0.
Proof. split; simpl; repeat constructor; simpl; intuition discriminate. Qed.

(** [float] on the handful of strings the samples use. *)
Definition sample_float (s : string) : option Q :=
  if String.eqb s "100" then Some (100#1)
  else if String.eqb s "0" then Some (0#1) else None.

Lemma add_product_keeps_products_ok_witness :
  products_ok (fst (add_product sample_float sample_db0 "P004" "Lehenga" "100" "0")) /\
  fst (add_product sample_float sample_db0 "P001" "Gown" "100" "0") = sample_db0.
Proof.
  split.
  - exact (proj1 (add_product_keeps_products_ok sample_float sample_db0 "P004" "Lehenga" "100" "0"
                    sample_db0_products_ok)).
  - exact (proj2 (add_product_keeps_products_ok sample_float sample_db0 "P001" "Gown" "100" "0"
                    sample_db0_products_ok) eq_refl).
Defined.

Lemma nodup_recode (l : list Product) (pid : nat) (code : string) :
  NoDup (map product_id l) -> NoDup (map product_code l) ->
  (forall q, In q l -> product_code q = code -> product_id q = pid) ->
  NoDup (map (fun q => if Nat.eqb (product_id q) pid then code else product_code q) l).
Proof.
  intros Hid Hc Hh. induction l as [|q l IH]; simpl; [constructor|].
  inversion Hid as [|? ? Hq Hid']; inversion Hc as [|? ? Hcq Hc']; subst. constructor.
  - intros Hin. apply in_map_iff in Hin as (q' & Heq & Hq').
    revert Heq. destruct (Nat.eqb (product_id q) pid) eqn:E1, (Nat.eqb (product_id q') pid) eqn:E2;
      intros Heq.
    + apply Nat.eqb_eq in E1, E2. apply Hq. rewrite E1, <- E2. apply in_map. exact Hq'.
    + rewrite (Hh q' (or_intror Hq') Heq), Nat.eqb_refl in E2. discriminate.
    + rewrite (Hh q (or_introl eq_refl) (eq_sym Heq)), Nat.eqb_refl in E1. discriminate.
    + apply Hcq. rewrite <- Heq. apply in_map. exact Hq'.
  - apply IH; [exact Hid'|exact Hc'|]. intros q0 Hin. apply Hh. right. exact Hin.
Qed.

(** X23: edit_product keeps product ids and codes unique: renaming a
    product to a code another product holds fails the commit (the unique
    column) and writes nothing. *)
Theorem edit_product_keeps_products_ok (db : DB) (pid : nat) (code name : string) (rprice deposit : Q) :
  products_ok db ->
  products_ok (fst (edit_product db pid code name rprice deposit)) /\
  (forall q, In q (products db) -> product_code q = code -> product_id q <> pid ->
     fst (edit_product db pid code name rprice deposit) = db /\
     forall fl, snd (edit_product db pid code name rprice deposit) <> Done fl).
Proof.
  intros Hok. split.
  2:{ intros q Hin Hq Hne. unfold edit_product.
      destruct (find_product db pid); [|split; [reflexivity|discriminate]].
      replace (existsb _ _) with true; [split; [reflexivity|discriminate]|].
      symmetry. apply existsb_exists. exists q. split; [exact Hin|].
      rewrite Hq, String.eqb_refl. simpl. apply negb_true_iff, Nat.eqb_neq. exact Hne. }
  destruct Hok as [Hid Hc]. unfold edit_product. destruct (find_product db pid); [|split; assumption].
  destruct (existsb _ _) eqn:Ee; [split; assumption|]. unfold products_ok, set_products. cbn [fst products].
  split.
  - rewrite map_map. erewrite map_ext; [exact Hid|]. intros q.
    destruct (Nat.eqb (product_id q) pid) eqn:E; [apply Nat.eqb_eq in E; simpl; congruence|reflexivity].
  - rewrite map_map.
    erewrite map_ext with (g := fun q => if Nat.eqb (product_id q) pid then code else product_code q)
      by (intros q; destruct (Nat.eqb _ _); reflexivity).
    apply nodup_recode; [exact Hid|exact Hc|]. intros q Hin Hq.
    pose proof (proj2 (Bool.not_true_iff_false _) Ee) as Hn.
    destruct (Nat.eqb (product_id q) pid) eqn:E; [apply Nat.eqb_eq; exact E|].
    exfalso. apply Hn. apply existsb_exists. exists q. split; [exact Hin|].
    rewrite Hq, String.eqb_refl, E. reflexivity.
Qed.

Lemma edit_product_keeps_products_ok_witness :
  products_ok sample_db0 /\
  products_ok (fst (edit_product sample_db0 3 "P004" "Dupatta" (150#1) (0#1))) /\
  fst (edit_product sample_db0 3 "P001" "Dupatta" (150#1) (0#1)) = sample_db0 /\
  snd (edit_product sample_db0 3 "P001" "Dupatta" (150#1) (0#1)) = Crash.
Proof.
  split; [exact sample_db0_products_ok|]. split.
  - exact (proj1 (edit_product_keeps_products_ok sample_db0 3 "P004" "Dupatta" (150#1) (0#1)
                    sample_db0_products_ok)).
  - split; [|vm_compute; reflexivity].
    refine (proj1 (proj2 (edit_product_keeps_products_ok sample_db0 3 "P001" "Dupatta" (150#1) (0#1)
                            sample_db0_products_ok) (mkProduct 1 "P001" "Gown" (500#1) (100#1) true)
                     _ eq_refl _)); [simpl; auto|discriminate].
Defined.

Lemma bulk_add_loop_spec (py_float : string -> option Q) (codes names prices deposits : list string) :
  forall db i a s db' a' s',
  bulk_add_loop py_float db codes names prices deposits i a s = Some (db', a', s') ->
  products_ok db ->
  products_ok db' /\
  exists ps, db' = set_products db (products db ++ ps) /\
    forall p, In p ps -> product_code p <> "" /\ product_name p <> "" /\ product_is_active p = true.
Proof.
  induction codes as [|c codes IH]; intros db i a s db' a' s' H Hok; simpl in H.
  - injection H as <- _ _. split; [exact Hok|]. exists []. split; [|intros p []].
    rewrite app_nil_r, set_products_same. reflexivity.
  - destruct (nth_error names i) as [n|]; [|discriminate].
    destruct (nth_error prices i) as [pr|]; [|discriminate].
    destruct (String.eqb (py_strip c) "" && String.eqb (py_strip n) "" && String.eqb (py_strip pr) "");
      [exact (IH _ _ _ _ _ _ _ H Hok)|].
    destruct (String.eqb (py_strip c) "" || String.eqb (py_strip n) "" || String.eqb (py_strip pr) "")
      eqn:Emiss; [exact (IH _ _ _ _ _ _ _ H Hok)|].
    destruct (product_code_used db (py_strip c)) eqn:Eu; [exact (IH _ _ _ _ _ _ _ H Hok)|].
    destruct (py_float (py_strip pr)) as [rp|]; [|discriminate].
    destruct (IH _ _ _ _ _ _ _ H (insert_product_ok db _ _ _ _ Hok Eu)) as [Hok' (ps & Hdb & Hps)].
    split; [exact Hok'|].
    apply orb_false_iff in Emiss as [Emiss Ep]. apply orb_false_iff in Emiss as [Ec En].
    eexists. split.
    + rewrite Hdb. unfold insert_product. simpl. rewrite <- app_assoc. reflexivity.
    + intros p [<-|Hin]; [|exact (Hps p Hin)]. simpl.
      split; [apply String.eqb_neq; exact Ec|]. split; [apply String.eqb_neq; exact En|reflexivity].
Qed.

(** X24: bulk_add_products keeps product ids and codes unique, also when
    the same code appears twice in one submission (the session autoflushes
    before each duplicate-code query), writes only the products table, and
    every product it adds is active with a non-empty stripped code and
    name. *)
Theorem bulk_add_keeps_products_ok (py_float : string -> option Q) (db : DB)
  (codes names prices deposits : list string) :
  products_ok db ->
  products_ok (fst (bulk_add_products py_float db codes names prices deposits)) /\
  exists ps, fst (bulk_add_products py_float db codes names prices deposits) = set_products db (products db ++ ps) /\
    forall p, In p ps -> product_code p <> "" /\ product_name p <> "" /\ product_is_active p = true.
Proof.
  intros Hok. unfold bulk_add_products.
  assert (Hsame : products_ok db /\ exists ps, db = set_products db (products db ++ ps) /\
            forall p, In p ps -> product_code p <> "" /\ product_name p <> "" /\ product_is_active p = true).
  { split; [exact Hok|]. exists []. split; [rewrite app_nil_r, set_products_same; reflexivity|intros p []]. }
  destruct (bulk_add_loop py_float db codes names prices deposits 0 0 0) as [[[db' a] s]|] eqn:E;
    [|exact Hsame].
  destruct (Nat.ltb 0 a); [|exact Hsame].
  exact (bulk_add_loop_spec py_float codes names prices deposits _ _ _ _ _ _ _ E Hok).
Qed.

Lemma bulk_add_keeps_products_ok_witness :
  snd (bulk_add_products sample_float sample_db0 ["P004"; " P004 "] ["Lehenga"; "Saree"] ["100"; "100"] []) =
    Done ["1 products added successfully!"; "1 products skipped (duplicate code or missing info)"] /\
  products_ok (fst (bulk_add_products sample_float sample_db0 ["P004"; " P004 "] ["Lehenga"; "Saree"]
                      ["100"; "100"] [])).
Proof.
  split; [vm_compute; reflexivity|].
  exact (proj1 (bulk_add_keeps_products_ok sample_float sample_db0 ["P004"; " P004 "] ["Lehenga"; "Saree"]
                  ["100"; "100"] [] sample_db0_products_ok)).
Defined.
